(** * mcp-portainer-bridge: a shallow embedding of [server.js]

    The server is a stateless adapter: a static tool registry, a
    confirmation gate, a dispatcher and ten handlers that each issue one
    or two HTTP calls against the Portainer API and render the reply as
    text.  This development embeds those pieces as Rocq functions and
    proves the properties of the written specification against them.

    Conventions of the embedding
    - a JavaScript string is the [string] of its UTF-8 bytes; lengths
      and indices count bytes, which is exact for the ASCII ids the
      handlers cut, and [toLowerCase] is modelled on the bytes, with
      the characters outside ASCII whose lower case holds an ASCII
      letter;
    - a JavaScript object used as a dictionary is a [gmap string _];
    - an argument or a reply field that may be missing is an [option];
      [confirm], which the handler only tests for truthiness, is kept
      as the JSON value the caller sent;
    - a reply is one of the bodies the endpoints of the Docker API
      answer with, and a handler reads it as JavaScript reads such an
      object, whichever endpoint it came from;
    - the remote API is an oracle threaded through a small state and
      exception monad that also records every call issued. *)

From Stdlib Require Import String Ascii List ZArith Lia Bool.
From stdpp Require Import base option list gmap strings pretty.

Local Open Scope Z_scope.
Local Open Scope nat_scope.

(* ================================================================== *)
(** ** JavaScript string primitives used by the server                 *)
(* ================================================================== *)

Module Js.

(** [c] is one of the ASCII capitals [A]..[Z]. *)
Definition is_upper (c : ascii) : bool :=
  (65 <=? nat_of_ascii c) && (nat_of_ascii c <=? 90).

Definition lower_char (c : ascii) : ascii :=
  if is_upper c then ascii_of_nat (nat_of_ascii c + 32) else c.

(** The ASCII capitals of a string put in lower case. *)
Fixpoint lowerAscii (s : string) : string :=
  match s with
  | EmptyString => EmptyString
  | String c r => String (lower_char c) (lowerAscii r)
  end.

(** The two characters outside ASCII whose lower case holds an ASCII
    letter, on the UTF-8 bytes of the string: U+212A KELVIN SIGN (bytes
    226 132 170) becomes [k], and U+0130, the dotted capital I (bytes
    196 176), becomes [i] followed by U+0307 (bytes 204 135). *)
Fixpoint foldSpecial (s : string) : string :=
  match s with
  | EmptyString => EmptyString
  | String c r =>
      match r with
      | EmptyString => String c (foldSpecial r)
      | String c2 r2 =>
          if Ascii.eqb c "196" && Ascii.eqb c2 "176" then
            String "i" (String "204" (String "135" (foldSpecial r2)))
          else
            match r2 with
            | EmptyString => String c (foldSpecial r)
            | String c3 r3 =>
                if Ascii.eqb c "226" && Ascii.eqb c2 "132" && Ascii.eqb c3 "170"
                then String "k" (foldSpecial r3)
                else String c (foldSpecial r)
            end
      end
  end.

(** [String.prototype.toLowerCase], on the UTF-8 bytes of the string.
    It is exact on every character whose lower case holds an ASCII
    character: the capitals [A]..[Z] and the two characters of
    [foldSpecial].  Any other character outside ASCII has a lower case
    outside ASCII and is kept as it is, which no search for an ASCII
    word, the only use the server makes of the result, can tell from
    its lower case. *)
Definition toLowerCase (s : string) : string := lowerAscii (foldSpecial s).

(** [w] starts [s]. *)
Fixpoint startsWith (s w : string) {struct w} : bool :=
  match w, s with
  | EmptyString, _ => true
  | String _ _, EmptyString => false
  | String a w', String b s' => Ascii.eqb a b && startsWith s' w'
  end.

(** [String.prototype.includes] *)
Fixpoint includes (s w : string) : bool :=
  startsWith s w ||
  match s with
  | EmptyString => false
  | String _ r => includes r w
  end.

Fixpoint take (n : nat) (s : string) : string :=
  match n, s with
  | S k, String c r => String c (take k r)
  | _, _ => EmptyString
  end.

Fixpoint drop (n : nat) (s : string) : string :=
  match n, s with
  | S k, String _ r => drop k r
  | _, _ => s
  end.

(** [String.prototype.substring(a, b)] on non-negative integers: both
    indices are clamped to the length and swapped when out of order. *)
Definition substring (a b : nat) (s : string) : string :=
  let a' := Nat.min a (String.length s) in
  let b' := Nat.min b (String.length s) in
  let lo := Nat.min a' b' in
  let hi := Nat.max a' b' in
  take (hi - lo) (drop lo s).

(** [s.replace(pat, rep)] with a string pattern: only the first
    occurrence, wherever it is, is replaced. *)
Fixpoint replace (pat rep s : string) : string :=
  if startsWith s pat then rep +:+ drop (String.length pat) s
  else match s with
       | EmptyString => EmptyString
       | String c r => String c (replace pat rep r)
       end.

(** [Array.prototype.join] on an array of strings *)
Fixpoint join (sep : string) (l : list string) : string :=
  match l with
  | [] => EmptyString
  | [x] => x
  | x :: r => x +:+ sep +:+ join sep r
  end.

(** Decimal rendering of an integer, as a template literal or
    [Number.prototype.toString] prints it. *)
Definition showNat (n : nat) : string := pretty n.

Definition showZ (z : Z) : string := pretty z.

(** A value that may be [undefined], inside a template literal. *)
Definition showOpt (o : option string) : string :=
  match o with Some s => s | None => "undefined" end.

(** [x || d] on a possibly missing string: the empty string is falsy. *)
Definition orElse (o : option string) (d : string) : string :=
  match o with
  | Some (String c r) => String c r
  | _ => d
  end.

End Js.

(* ================================================================== *)
(** ** The confirmation gate                                           *)
(* ================================================================== *)

Definition dangerous : list string :=
  ["remove"; "delete"; "stop"; "restart"; "kill"; "prune"].

Definition requiresConfirmation (action : string) : bool :=
  existsb (fun word => Js.includes (Js.toLowerCase action) word) dangerous.

(* ================================================================== *)
(** ** The tool registry (the [ListToolsRequestSchema] handler)        *)
(* ================================================================== *)

Inductive JsType := TObject | TString | TNumber | TBoolean | TArray.

(** Literals that occur as [default] values in the schemas. *)
Inductive Literal :=
| LBool (b : bool)
| LNum (n : Z)
| LStr (s : string).

(** A JSON schema node, with the keys the registry uses. *)
Module Schema.
#[local] Set Warnings "-register-all".
Inductive t := mk {
  type : JsType;
  description : option string;
  default : option Literal;
  enum : option (list string);
  items : option t;
  properties : option (list (string * t));
  required : option (list string)
}.
#[local] Set Warnings "register-all".
End Schema.

Definition scalar (t : JsType) (d : option string) (dflt : option Literal)
    (en : option (list string)) : Schema.t :=
  Schema.mk t d dflt en None None None.

Definition array (it : Schema.t) (d : string) : Schema.t :=
  Schema.mk TArray (Some d) None None (Some it) None None.

Definition object (props : list (string * Schema.t))
    (req : option (list string)) : Schema.t :=
  Schema.mk TObject None None None None (Some props) req.

Module Tool.
Record t := mk {
  name : string;
  description : string;
  inputSchema : Schema.t
}.
End Tool.

Definition tools : list Tool.t := [
  Tool.mk "portainer_list_containers"
    "List all containers on the NAS"
    (object
      [("all", scalar TBoolean
                 (Some "Show all containers (including stopped)")
                 (Some (LBool true)) None)]
      None);
  Tool.mk "portainer_container_info"
    "Get detailed info about a specific container"
    (object
      [("container_id", scalar TString (Some "Container ID or name") None None)]
      (Some ["container_id"]));
  Tool.mk "portainer_container_logs"
    "Get logs from a container"
    (object
      [("container_id", scalar TString (Some "Container ID or name") None None);
       ("tail", scalar TNumber (Some "Number of lines to show from the end")
                  (Some (LNum 100%Z)) None)]
      (Some ["container_id"]));
  Tool.mk "portainer_container_action"
    "Perform action on container (start/stop/restart/pause/unpause)"
    (object
      [("container_id", scalar TString (Some "Container ID or name") None None);
       ("action", scalar TString (Some "Action to perform") None
                    (Some ["start"; "stop"; "restart"; "pause"; "unpause"]));
       ("confirm", scalar TBoolean (Some "Confirmation for destructive actions")
                     (Some (LBool false)) None)]
      (Some ["container_id"; "action"]));
  Tool.mk "portainer_create_container"
    "Create a new container from an image"
    (object
      [("name", scalar TString (Some "Container name") None None);
       ("image", scalar TString (Some "Docker image to use") None None);
       ("env", array (scalar TString None None None)
                 "Environment variables (KEY=VALUE format)");
       ("ports", array (object [("host", scalar TNumber None None None);
                                ("container", scalar TNumber None None None)]
                               None)
                   "Port mappings");
       ("volumes", array (object [("host", scalar TString None None None);
                                  ("container", scalar TString None None None)]
                                 None)
                     "Volume mappings");
       ("restart_policy", scalar TString None (Some (LStr "unless-stopped"))
                            (Some ["no"; "always"; "unless-stopped"; "on-failure"]));
       ("confirm", scalar TBoolean (Some "Confirmation to create container")
                     (Some (LBool false)) None)]
      (Some ["name"; "image"; "confirm"]));
  Tool.mk "portainer_list_images"
    "List all Docker images on the NAS"
    (object [] None);
  Tool.mk "portainer_list_volumes"
    "List all Docker volumes on the NAS"
    (object [] None);
  Tool.mk "portainer_list_networks"
    "List all Docker networks on the NAS"
    (object [] None);
  Tool.mk "portainer_system_info"
    "Get Docker system information"
    (object [] None);
  Tool.mk "portainer_deploy_stack"
    "Deploy a docker-compose stack"
    (object
      [("name", scalar TString (Some "Stack name") None None);
       ("compose_content", scalar TString
                             (Some "Docker compose file content (YAML)") None None);
       ("env", array (object [("name", scalar TString None None None);
                              ("value", scalar TString None None None)]
                             None)
                 "Environment variables for the stack");
       ("confirm", scalar TBoolean (Some "Confirmation to deploy stack")
                     (Some (LBool false)) None)]
      (Some ["name"; "compose_content"; "confirm"]))
].

(** The reply to a list-tools request. *)
Definition listTools : list Tool.t := tools.

(** The descriptors registered under a given name. *)
Definition descriptorsNamed (n : string) : list Tool.t :=
  filter (fun d => Tool.name d = n) listTools.

(** The parameters a schema marks as required; a schema without the
    [required] key requires none. *)
Definition requiredOf (s : Schema.t) : list string :=
  match Schema.required s with Some l => l | None => [] end.

(** The schema of one property of an object schema. *)
Definition propertyOf (s : Schema.t) (p : string) : option Schema.t :=
  match Schema.properties s with
  | Some props => snd <$> find (fun kv => String.eqb (fst kv) p) props
  | None => None
  end.

(* ================================================================== *)
(** ** Data exchanged with the caller and with the remote API          *)
(* ================================================================== *)

(** Untyped JSON, for values the server passes through unread: the
    [env] argument and the body of an error response. *)
#[local] Set Warnings "-register-all".
Inductive Json :=
| JNull
| JBool (b : bool)
| JNum (n : Z)
| JStr (s : string)
| JArr (l : list Json)
| JObj (l : list (string * Json)).
#[local] Set Warnings "register-all".

(** JavaScript truthiness of a JSON value. *)
Definition truthy (j : Json) : bool :=
  match j with
  | JNull => false
  | JBool b => b
  | JNum n => negb (n =? 0)%Z
  | JStr s => negb (String.eqb s "")
  | JArr _ | JObj _ => true
  end.

Module PortMapping.
Record t := mk { host : Z; container : Z }.
End PortMapping.

Module VolumeMapping.
Record t := mk { host : string; container : string }.
End VolumeMapping.

(** [request.params.arguments]: one object holding whichever of the
    parameters of the ten schemas the caller supplied.  A missing key
    reads as [undefined], here [None].  The handler tests [confirm] for
    truthiness only, whatever value the caller sent, so [confirm] is
    kept as the JSON value it arrived as. *)
Module Args.
Record t := mk {
  all : option bool;
  container_id : option string;
  tail : option Z;
  action : option string;
  confirm : option Json;
  name : option string;
  image : option string;
  env : option Json;
  ports : option (list PortMapping.t);
  volumes : option (list VolumeMapping.t);
  restart_policy : option string;
  compose_content : option string
}.

Definition empty : t :=
  mk None None None None None None None None None None None None.
End Args.

(** [request.params] of a call-tool request *)
Module ToolCall.
Record t := mk { name : string; arguments : Args.t }.
End ToolCall.

Module Content.
Record t := mk { type : string; text : string }.
End Content.

Module ToolResult.
Record t := mk { content : list Content.t }.
End ToolResult.

(** The shape every handler returns: one text item. *)
Definition textResult (s : string) : ToolResult.t :=
  ToolResult.mk [Content.mk "text" s].

(** *** Payloads sent to the remote API *)

Module HostBinding.
Record t := mk { HostPort : string }.
End HostBinding.

Module HostConfig.
Record t := mk {
  RestartPolicy_Name : string;
  PortBindings : gmap string (list HostBinding.t);
  Binds : list string
}.
End HostConfig.

Module ContainerConfig.
Record t := mk {
  Image : option string;
  name : option string;
  Env : Json;
  HostConfig : HostConfig.t;
  ExposedPorts : gmap string unit
}.
End ContainerConfig.

Module StackData.
Record t := mk {
  Name : option string;
  StackFileContent : option string;
  Env : Json
}.
End StackData.

Inductive Method := GET | POST.

Inductive Param :=
| PBool (b : bool)
| PNum (n : Z)
| PStr (s : string)
| PUndefined.

Inductive Body :=
| NoBody
| CreateBody (config : ContainerConfig.t)
| StackBody (stackData : StackData.t).

Module Request.
Record t := mk {
  method : Method;
  url : string;
  params : list (string * Param);
  data : Body
}.
End Request.

(** *** Replies of the remote API, as the handlers read them *)

Module Port.
Record t := mk { PrivatePort : Z; PublicPort : option Z }.
End Port.

Module Container.
Record t := mk {
  Id : string;
  Names : list string;
  Image : string;
  Status : string;
  State : string;
  Ports : option (list Port.t)
}.
End Container.

Module Mount.
Record t := mk { Source : string; Destination : string }.
End Mount.

Module Inspect.
Record t := mk {
  Name : string;
  Id : string;
  State_Status : string;
  State_StartedAt : string;
  Config_Image : string;
  Config_Env : list string;
  HostConfig_RestartPolicy_Name : string;
  Mounts : option (list Mount.t);
  NetworkSettings_Networks : list (string * Json)
}.
End Inspect.

Module Image.
Record t := mk {
  Id : string;
  RepoTags : option (list string);
  Size : Z;
  Created : Z
}.
End Image.

Module Volume.
Record t := mk { Name : string; Driver : string; Mountpoint : string }.
End Volume.

Module Network.
Record t := mk { Id : string; Name : string; Driver : string; Scope : string }.
End Network.

Module SystemInfo.
Record t := mk {
  ServerVersion : string;
  OperatingSystem : string;
  Architecture : string;
  MemTotal : Z;
  NCPU : Z;
  Containers : Z;
  ContainersRunning : Z;
  Images : Z;
  Driver : string;
  DockerRootDir : string
}.
End SystemInfo.

(** [response.data] of a successful call: the bodies the endpoints of
    the Docker API answer with.  [DEmpty] is the empty body of an
    accepted action, which axios delivers as the empty string; the
    replies to a creation and to a deployment are objects that may lack
    their [Id]. *)
Inductive RemoteData :=
| DContainers (l : list Container.t)
| DInspect (c : Inspect.t)
| DText (s : string)
| DEmpty
| DCreated (Id : option string)
| DImages (l : list Image.t)
| DVolumes (Volumes : option (list Volume.t))
| DNetworks (l : list Network.t)
| DSystemInfo (i : SystemInfo.t)
| DStack (Id : option Z).

(** What axios rejects with: [response] is set when the server answered
    with a status outside 2xx and missing when it could not be reached. *)
Module AxiosError.
Record t := mk { response : option (Z * Json); message : string }.
End AxiosError.

(** The settlement of one [api.get] / [api.post] promise. *)
Inductive Reply :=
| Resolved (data : RemoteData)
| Rejected (e : AxiosError.t).

Inductive ErrorCode := InternalError | MethodNotFound.

(** Everything that can be thrown inside the call-tool handler. *)
Inductive Exn :=
| McpError (code : ErrorCode) (message : string)
| AxiosErr (e : AxiosError.t)
| TypeError.

(** [process.env], read once when the module is loaded. *)
Module ProcessEnv.
Record t := mk {
  PORTAINER_URL : option string;
  PORTAINER_TOKEN : option string;
  PORTAINER_ENDPOINT_ID : option string
}.
End ProcessEnv.

(* ================================================================== *)
(** ** The pure parts of the handlers                                  *)
(* ================================================================== *)

Definition nl : string := String (ascii_of_nat 10) EmptyString.

(** [s || d] on a string that is present: only the empty string is falsy. *)
Definition orString (s d : string) : string :=
  match s with EmptyString => d | _ => s end.

(** [!v] on a possibly missing value. *)
Definition falsy (o : option Json) : bool :=
  match o with Some j => negb (truthy j) | None => true end.

(** *** Reading a reply *)

(** [response.data.Id], which the handlers splice into a URL or a text:
    a string in the reply to a creation or an inspection, a number in the
    reply to a deployment, [undefined] where the reply has no such
    property. *)
Inductive JsId :=
| IdString (s : string)
| IdNumber (n : Z)
| IdUndefined.

Definition dataId (data : RemoteData) : JsId :=
  match data with
  | DCreated (Some Id) => IdString Id
  | DInspect c => IdString (Inspect.Id c)
  | DStack (Some Id) => IdNumber Id
  | _ => IdUndefined
  end.

(** [`${Id}`] *)
Definition showId (Id : JsId) : string :=
  match Id with
  | IdString s => s
  | IdNumber n => Js.showZ n
  | IdUndefined => "undefined"
  end.

(** [`${response.data}`]: a string as it is, an object as
    [[object Object]], an array as its elements so rendered and joined
    by commas. *)
Definition showData (data : RemoteData) : string :=
  let objects {A} (l : list A) :=
    Js.join "," (map (fun _ => "[object Object]") l) in
  match data with
  | DText s => s
  | DEmpty => ""
  | DContainers l => objects l
  | DImages l => objects l
  | DNetworks l => objects l
  | _ => "[object Object]"
  end.

(** *** listContainers: the projection and its rendering *)

Module Summary.
Record t := mk {
  id : string;
  name : string;
  image : string;
  status : string;
  state : string;
  ports : string
}.
End Summary.

(** [p.PublicPort ? `${p.PublicPort}:${p.PrivatePort}` : `${p.PrivatePort}`];
    a missing public port and a public port 0 are both falsy. *)
Definition portText (p : Port.t) : string :=
  match Port.PublicPort p with
  | Some pub =>
      if (pub =? 0)%Z then Js.showZ (Port.PrivatePort p)
      else Js.showZ pub +:+ ":" +:+ Js.showZ (Port.PrivatePort p)
  | None => Js.showZ (Port.PrivatePort p)
  end.

(** The callback of [response.data.map] in [listContainers].  [None]
    stands for the TypeError of reading [c.Names[0].replace] on an empty
    [Names] or [c.Ports.map] on a missing [Ports]. *)
Definition summarize (c : Container.t) : option Summary.t :=
  name0 ← head (Container.Names c);
  ports ← Container.Ports c;
  Some (Summary.mk
          (Js.substring 0 12 (Container.Id c))
          (Js.replace "/" "" name0)
          (Container.Image c)
          (Container.Status c)
          (Container.State c)
          (Js.join ", " (map portText ports))).

Definition renderSummary (c : Summary.t) : string :=
  "📦 " +:+ Summary.name c +:+ " (" +:+ Summary.id c +:+ ")" +:+ nl +:+
  "   Image: " +:+ Summary.image c +:+ nl +:+
  "   Status: " +:+ Summary.status c +:+ nl +:+
  "   Ports: " +:+ orString (Summary.ports c) "none" +:+ nl.

Definition containersText (containers : list Summary.t) : string :=
  "Found " +:+ Js.showNat (length containers) +:+ " containers:" +:+ nl +:+ nl +:+
  Js.join nl (map renderSummary containers).

(** *** getContainerInfo *)

Definition renderMount (m : Mount.t) : string :=
  "  - " +:+ Mount.Source m +:+ " -> " +:+ Mount.Destination m.

(** [None] stands for the TypeError of [c.Mounts.map] on a missing
    [Mounts]. *)
Definition inspectText (c : Inspect.t) : option string :=
  mounts ← Inspect.Mounts c;
  Some ("Container: " +:+ Js.replace "/" "" (Inspect.Name c) +:+
          " (" +:+ Js.substring 0 12 (Inspect.Id c) +:+ ")" +:+ nl +:+
        "State: " +:+ Inspect.State_Status c +:+ nl +:+
        "Started: " +:+ Inspect.State_StartedAt c +:+ nl +:+
        "Image: " +:+ Inspect.Config_Image c +:+ nl +:+
        "Restart Policy: " +:+ Inspect.HostConfig_RestartPolicy_Name c +:+ nl +:+
        "Environment:" +:+ nl +:+
          Js.join nl (map (fun e => "  - " +:+ e) (Inspect.Config_Env c)) +:+ nl +:+
        "Mounts:" +:+ nl +:+
          orString (Js.join nl (map renderMount mounts)) "  none" +:+ nl +:+
        "Networks: " +:+
          Js.join ", " (map fst (Inspect.NetworkSettings_Networks c))).

(** *** createContainer: the creation payload *)

Definition portKey (p : PortMapping.t) : string :=
  Js.showZ (PortMapping.container p) +:+ "/tcp".

(** The body of [args.ports.forEach]: two assignments into the payload. *)
Definition addPort (config : ContainerConfig.t) (p : PortMapping.t)
    : ContainerConfig.t :=
  let hc := ContainerConfig.HostConfig config in
  ContainerConfig.mk
    (ContainerConfig.Image config)
    (ContainerConfig.name config)
    (ContainerConfig.Env config)
    (HostConfig.mk
       (HostConfig.RestartPolicy_Name hc)
       (<[portKey p := [HostBinding.mk (Js.showZ (PortMapping.host p))]]>
          (HostConfig.PortBindings hc))
       (HostConfig.Binds hc))
    (<[portKey p := tt]> (ContainerConfig.ExposedPorts config)).

Definition bindText (v : VolumeMapping.t) : string :=
  VolumeMapping.host v +:+ ":" +:+ VolumeMapping.container v.

Definition setBinds (config : ContainerConfig.t) (binds : list string)
    : ContainerConfig.t :=
  let hc := ContainerConfig.HostConfig config in
  ContainerConfig.mk
    (ContainerConfig.Image config)
    (ContainerConfig.name config)
    (ContainerConfig.Env config)
    (HostConfig.mk
       (HostConfig.RestartPolicy_Name hc)
       (HostConfig.PortBindings hc)
       binds)
    (ContainerConfig.ExposedPorts config).

(** [args.env || []] *)
Definition envOrEmpty (e : option Json) : Json :=
  match e with
  | Some j => if truthy j then j else JArr []
  | None => JArr []
  end.

(** The [config] object of [createContainer] once the ports and the
    volumes are configured. *)
Definition createConfig (args : Args.t) : ContainerConfig.t :=
  let config :=
    ContainerConfig.mk
      (Args.image args)
      (Args.name args)
      (envOrEmpty (Args.env args))
      (HostConfig.mk
         (Js.orElse (Args.restart_policy args) "unless-stopped")
         ∅
         [])
      ∅ in
  let config :=
    match Args.ports args with
    | Some ports => fold_left addPort ports config
    | None => config
    end in
  match Args.volumes args with
  | Some volumes => setBinds config (map bindText volumes)
  | None => config
  end.

Definition createdText (name : option string) (Id : string) : string :=
  "✅ Container '" +:+ Js.showOpt name +:+ "' created and started successfully!" +:+ nl +:+
  "ID: " +:+ Js.substring 0 12 Id.

(** *** listVolumes, listNetworks *)

Definition renderVolume (v : Volume.t) : string :=
  "💾 " +:+ Volume.Name v +:+ nl +:+
  "   Driver: " +:+ Volume.Driver v +:+ nl +:+
  "   Mountpoint: " +:+ Volume.Mountpoint v +:+ nl.

Definition volumesText (volumes : list Volume.t) : string :=
  "Found " +:+ Js.showNat (length volumes) +:+ " volumes:" +:+ nl +:+ nl +:+
  Js.join nl (map renderVolume volumes).

Module NetworkRow.
Record t := mk { id : string; name : string; driver : string; scope : string }.
End NetworkRow.

Definition networkRow (n : Network.t) : NetworkRow.t :=
  NetworkRow.mk (Js.substring 0 12 (Network.Id n)) (Network.Name n)
                (Network.Driver n) (Network.Scope n).

Definition renderNetwork (n : NetworkRow.t) : string :=
  "🌐 " +:+ NetworkRow.name n +:+ " (" +:+ NetworkRow.id n +:+ ")" +:+ nl +:+
  "   Driver: " +:+ NetworkRow.driver n +:+ nl +:+
  "   Scope: " +:+ NetworkRow.scope n +:+ nl.

Definition networksText (networks : list NetworkRow.t) : string :=
  "Found " +:+ Js.showNat (length networks) +:+ " networks:" +:+ nl +:+ nl +:+
  Js.join nl (map renderNetwork networks).

(** *** listImages *)

Module ImageRow.
Record t := mk { id : string; tags : list string; size : string; created : string }.
End ImageRow.

Definition renderImage (img : ImageRow.t) : string :=
  "🖼️  " +:+ Js.join ", " (ImageRow.tags img) +:+ nl +:+
  "   ID: " +:+ ImageRow.id img +:+ nl +:+
  "   Size: " +:+ ImageRow.size img +:+ nl +:+
  "   Created: " +:+ ImageRow.created img +:+ nl.

Definition imagesText (images : list ImageRow.t) : string :=
  "Found " +:+ Js.showNat (length images) +:+ " images:" +:+ nl +:+ nl +:+
  Js.join nl (map renderImage images).

(** *** The three confirmation warnings *)

Definition actionWarning (action : string) : string :=
  "⚠️ This action (" +:+ action +:+
  ") requires confirmation. Please set confirm=true to proceed.".

Definition createWarning : string :=
  "⚠️ Creating a container requires confirmation. Please set confirm=true to proceed.".

Definition deployWarning : string :=
  "⚠️ Deploying a stack requires confirmation. Please set confirm=true to proceed.".

(* ================================================================== *)
(** ** The server                                                      *)
(* ================================================================== *)

Inductive Outcome (A : Type) :=
| Returned (a : A)
| Thrown (e : Exn).
Arguments Returned {A} a.
Arguments Thrown {A} e.

Section Server.

(** The remote API is an oracle: a state of the outside world and a
    function giving, for each request, how its promise settles. *)
Context {World : Type}.
Variable respond : World -> Request.t -> Reply * World.

(** Library functions whose results the handlers only splice into text:
    [JSON.stringify], [(n / 1024 / 1024).toFixed(2)],
    [(n / 1024 / 1024 / 1024).toFixed(2)] and
    [new Date(n * 1000).toLocaleDateString()]. *)
Variable stringify : Json -> string.
Variable megabytes : Z -> string.
Variable gigabytes : Z -> string.
Variable toLocaleDateString : Z -> string.

Variable env : ProcessEnv.t.

Definition PORTAINER_URL : string :=
  Js.orElse (ProcessEnv.PORTAINER_URL env) "http://192.168.50.78:9000".
Definition PORTAINER_TOKEN : option string :=
  ProcessEnv.PORTAINER_TOKEN env.
Definition PORTAINER_ENDPOINT_ID : string :=
  Js.orElse (ProcessEnv.PORTAINER_ENDPOINT_ID env) "1".

(** *** The monad of the handlers: state of the world, log of the
    calls issued so far (oldest first), and exceptions *)

Record State := mkState {
  world : World;
  calls : list (Request.t * Reply)
}.

Definition M (A : Type) : Type := State -> Outcome A * State.

Definition ret {A} (a : A) : M A := fun st => (Returned a, st).

Definition throw {A} (e : Exn) : M A := fun st => (Thrown e, st).

Definition bind {A B} (m : M A) (k : A -> M B) : M B := fun st =>
  match m st with
  | (Returned a, st') => k a st'
  | (Thrown e, st') => (Thrown e, st')
  end.

Definition try_catch {A} (m : M A) (handler : Exn -> M A) : M A := fun st =>
  match m st with
  | (Returned a, st') => (Returned a, st')
  | (Thrown e, st') => handler e st'
  end.

(** A pure step that dereferences a missing value. *)
Definition orTypeError {A} (o : option A) : M A :=
  match o with Some a => ret a | None => throw TypeError end.

Local Notation "x <~ c ;; k" := (bind c (fun x => k))
  (at level 100, c at next level, right associativity).

(** One call through the axios instance [api]. *)
Definition send (r : Request.t) : M RemoteData := fun st =>
  let '(reply, w) := respond (world st) r in
  let st' := mkState w (calls st ++ [(r, reply)]) in
  match reply with
  | Resolved data => (Returned data, st')
  | Rejected e => (Thrown (AxiosErr e), st')
  end.

Definition api_get (url : string) (params : list (string * Param)) : M RemoteData :=
  send (Request.mk GET url params NoBody).

Definition api_post (url : string) (data : Body)
    (params : list (string * Param)) : M RemoteData :=
  send (Request.mk POST url params data).

Definition docker (path : string) : string :=
  "/api/endpoints/" +:+ PORTAINER_ENDPOINT_ID +:+ "/docker/" +:+ path.

(** *** The handlers.  Each reads the reply as JavaScript reads the
    object it was sent: a property the reply lacks is [undefined], an
    array of any elements can be mapped over, and [TypeError] is raised
    where a property of [undefined] is read or a method is missing. *)

Definition listContainers (all : option bool) : M ToolResult.t :=
  let all := default true all in
  response <~ api_get (docker "containers/json") [("all", PBool all)];;
  match response with
  | DContainers data =>
      containers <~ orTypeError (mapM summarize data);;
      ret (textResult (containersText containers))
  | DImages [] | DNetworks [] => ret (textResult (containersText []))
  | _ => throw TypeError
  end.

Definition getContainerInfo (containerId : option string) : M ToolResult.t :=
  response <~ api_get (docker ("containers/" +:+ Js.showOpt containerId +:+ "/json")) [];;
  match response with
  | DInspect c =>
      text <~ orTypeError (inspectText c);;
      ret (textResult text)
  | _ => throw TypeError
  end.

Definition getContainerLogs (containerId : option string) (tail : option Z)
    : M ToolResult.t :=
  let tail := default 100%Z tail in
  response <~ api_get (docker ("containers/" +:+ Js.showOpt containerId +:+ "/logs"))
                [("stdout", PBool true); ("stderr", PBool true); ("tail", PNum tail)];;
  ret (textResult
         ("Logs for container " +:+ Js.showOpt containerId +:+
          " (last " +:+ Js.showZ tail +:+ " lines):" +:+ nl +:+ nl +:+
          showData response)).

Definition containerAction (containerId : option string) (action : string)
    : M ToolResult.t :=
  _ <~ api_post (docker ("containers/" +:+ Js.showOpt containerId +:+ "/" +:+ action))
         NoBody [];;
  ret (textResult
         ("✅ Successfully performed '" +:+ action +:+ "' on container " +:+
          Js.showOpt containerId)).

Definition createContainer (args : Args.t) : M ToolResult.t :=
  let config := createConfig args in
  createResponse <~ api_post (docker "containers/create") (CreateBody config)
                      [("name", match Args.name args with
                                | Some n => PStr n
                                | None => PUndefined
                                end)];;
  let Id := dataId createResponse in
  _ <~ api_post (docker ("containers/" +:+ showId Id +:+ "/start")) NoBody [];;
  match Id with
  | IdString Id => ret (textResult (createdText (Args.name args) Id))
  | _ => throw TypeError
  end.

Definition imageRow (img : Image.t) : ImageRow.t :=
  ImageRow.mk
    (Js.substring 7 19 (Image.Id img))
    (default ["<none>"] (Image.RepoTags img))
    (megabytes (Image.Size img) +:+ " MB")
    (toLocaleDateString (Image.Created img)).

(** The same callback on an element that has an [Id] and none of the
    other properties read: [undefined || ['<none>']], [NaN.toFixed(2)]
    and the date of [NaN]. *)
Definition imageRowOfId (Id : string) : ImageRow.t :=
  ImageRow.mk (Js.substring 7 19 Id) ["<none>"] "NaN MB" "Invalid Date".

Definition listImages : M ToolResult.t :=
  response <~ api_get (docker "images/json") [];;
  match response with
  | DImages data =>
      let images := map imageRow data in
      ret (textResult (imagesText images))
  | DContainers data =>
      ret (textResult (imagesText (map (fun c => imageRowOfId (Container.Id c)) data)))
  | DNetworks data =>
      ret (textResult (imagesText (map (fun n => imageRowOfId (Network.Id n)) data)))
  | _ => throw TypeError
  end.

Definition listVolumes : M ToolResult.t :=
  response <~ api_get (docker "volumes") [];;
  let volumes :=
    match response with
    | DVolumes Volumes => default [] Volumes
    | _ => []
    end in
  ret (textResult (volumesText volumes)).

(** The same callback on an element that has an [Id] and none of the
    other properties read. *)
Definition networkRowOfId (Id : string) : NetworkRow.t :=
  NetworkRow.mk (Js.substring 0 12 Id) "undefined" "undefined" "undefined".

Definition listNetworks : M ToolResult.t :=
  response <~ api_get (docker "networks") [];;
  match response with
  | DNetworks data =>
      let networks := map networkRow data in
      ret (textResult (networksText networks))
  | DContainers data =>
      ret (textResult (networksText (map (fun c => networkRowOfId (Container.Id c)) data)))
  | DImages data =>
      ret (textResult (networksText (map (fun i => networkRowOfId (Image.Id i)) data)))
  | _ => throw TypeError
  end.

(** The template of [getSystemInfo], over the ten values spliced in. *)
Definition systemInfoLines
    (ServerVersion OperatingSystem Architecture MemTotal NCPU
     Containers ContainersRunning Images Driver DockerRootDir : string) : string :=
  "Docker System Information:" +:+ nl +:+ nl +:+
  "🖥️  Server Version: " +:+ ServerVersion +:+ nl +:+
  "🐧 OS: " +:+ OperatingSystem +:+ nl +:+
  "🏗️  Architecture: " +:+ Architecture +:+ nl +:+
  "💾 Total Memory: " +:+ MemTotal +:+ " GB" +:+ nl +:+
  "🧮 CPUs: " +:+ NCPU +:+ nl +:+
  "📦 Containers: " +:+ Containers +:+
    " (Running: " +:+ ContainersRunning +:+ ")" +:+ nl +:+
  "🖼️  Images: " +:+ Images +:+ nl +:+
  "💿 Storage Driver: " +:+ Driver +:+ nl +:+
  "📂 Docker Root: " +:+ DockerRootDir.

Definition systemInfoText (info : SystemInfo.t) : string :=
  systemInfoLines
    (SystemInfo.ServerVersion info)
    (SystemInfo.OperatingSystem info)
    (SystemInfo.Architecture info)
    (gigabytes (SystemInfo.MemTotal info))
    (Js.showZ (SystemInfo.NCPU info))
    (Js.showZ (SystemInfo.Containers info))
    (Js.showZ (SystemInfo.ContainersRunning info))
    (Js.showZ (SystemInfo.Images info))
    (SystemInfo.Driver info)
    (SystemInfo.DockerRootDir info).

(** No other reply has any of the ten properties: each reads as
    [undefined], and [(undefined / 1024 / 1024 / 1024).toFixed(2)] is
    [NaN]. *)
Definition getSystemInfo : M ToolResult.t :=
  response <~ api_get (docker "info") [];;
  match response with
  | DSystemInfo info => ret (textResult (systemInfoText info))
  | _ =>
      ret (textResult
             (systemInfoLines "undefined" "undefined" "undefined" "NaN"
                "undefined" "undefined" "undefined" "undefined"
                "undefined" "undefined"))
  end.

Definition deployStack (args : Args.t) : M ToolResult.t :=
  let stackData :=
    StackData.mk (Args.name args) (Args.compose_content args)
                 (envOrEmpty (Args.env args)) in
  response <~ api_post ("/api/stacks?endpointId=" +:+ PORTAINER_ENDPOINT_ID +:+
                        "&method=string&type=2")
                (StackBody stackData) [];;
  ret (textResult
         ("✅ Stack '" +:+ Js.showOpt (Args.name args) +:+
          "' deployed successfully!" +:+ nl +:+
          "Stack ID: " +:+ showId (dataId response))).

(** *** The [CallToolRequestSchema] handler *)

(** [!PORTAINER_TOKEN]: the variable is unset or empty. *)
Definition tokenMissing : bool :=
  match PORTAINER_TOKEN with
  | Some (String _ _) => false
  | _ => true
  end.

(** The [switch (name)] of the handler. *)
Definition dispatch (name : string) (args : Args.t) : M ToolResult.t :=
  if String.eqb name "portainer_list_containers" then
    listContainers (Args.all args)
  else if String.eqb name "portainer_container_info" then
    getContainerInfo (Args.container_id args)
  else if String.eqb name "portainer_container_logs" then
    getContainerLogs (Args.container_id args) (Args.tail args)
  else if String.eqb name "portainer_container_action" then
    action <~ orTypeError (Args.action args);;
    if requiresConfirmation action && falsy (Args.confirm args) then
      ret (textResult (actionWarning action))
    else containerAction (Args.container_id args) action
  else if String.eqb name "portainer_create_container" then
    if falsy (Args.confirm args) then ret (textResult createWarning)
    else createContainer args
  else if String.eqb name "portainer_list_images" then listImages
  else if String.eqb name "portainer_list_volumes" then listVolumes
  else if String.eqb name "portainer_list_networks" then listNetworks
  else if String.eqb name "portainer_system_info" then getSystemInfo
  else if String.eqb name "portainer_deploy_stack" then
    if falsy (Args.confirm args) then ret (textResult deployWarning)
    else deployStack args
  else
    throw (McpError MethodNotFound ("Unknown tool: " +:+ name)).

(** The [catch (error)] clause: an axios error that carries a response
    is rewrapped, anything else is rethrown as it is. *)
Definition rewrap (error : Exn) : M ToolResult.t :=
  match error with
  | AxiosErr e =>
      match AxiosError.response e with
      | Some (status, data) =>
          throw (McpError InternalError
                   ("Portainer API error: " +:+ Js.showZ status +:+ " - " +:+
                    stringify data))
      | None => throw error
      end
  | _ => throw error
  end.

Definition callTool (request : ToolCall.t) : M ToolResult.t :=
  if tokenMissing then
    throw (McpError InternalError "PORTAINER_TOKEN not configured")
  else
    let name := ToolCall.name request in
    let args := ToolCall.arguments request in
    try_catch (dispatch name args) rewrap.

(** The transport hands the calls to the handler one at a time; each
    call starts where the previous one left the world and the log. *)
Fixpoint serve (requests : list ToolCall.t) (st : State)
    : list (Outcome ToolResult.t) * State :=
  match requests with
  | [] => ([], st)
  | request :: rest =>
      let '(outcome, st1) := callTool request st in
      let '(outcomes, st2) := serve rest st1 in
      (outcome :: outcomes, st2)
  end.

End Server.

(* ================================================================== *)
(** ** Notions of the written specification                            *)
(* ================================================================== *)

(** *** Case-insensitive containment *)

(** The small letters [a]..[z] by their codes, and the capital of one,
    32 places before it. *)
Definition isLowerLetter (c : ascii) : Prop :=
  97 ≤ nat_of_ascii c ≤ 122.

Definition capitalOf (c : ascii) : ascii :=
  ascii_of_nat (nat_of_ascii c - 32).

(** U+212A KELVIN SIGN in UTF-8: besides the capitals [A]..[Z], the one
    character that reads as a small ASCII letter, [k], when case is
    ignored. *)
Definition kelvinSign : string :=
  String "226" (String "132" (String "170" EmptyString)).

(** The ways to write the small letter [l]: as it is, as its capital,
    or, for [k], as the Kelvin sign. *)
Inductive writes : string -> ascii -> Prop :=
| writes_small l : writes (String l EmptyString) l
| writes_capital l : isLowerLetter l -> writes (String (capitalOf l) EmptyString) l
| writes_kelvin : writes kelvinSign "k".

(** [s] spells the word [w], letter by letter, when case is ignored. *)
Inductive spelledAs : string -> string -> Prop :=
| spelled_nil : spelledAs "" ""
| spelled_cons c s l w :
    writes c l -> spelledAs s w -> spelledAs (c +:+ s) (String l w).

(** [s] contains [w] case-insensitively: some substring of [s] spells
    [w] when case is ignored. *)
Definition containsIgnoringCase (s w : string) : Prop :=
  ∃ pre mid post, s = pre +:+ mid +:+ post ∧ spelledAs mid w.

(** The six markers of a destructive action. *)
Definition markers : list string :=
  ["remove"; "delete"; "stop"; "restart"; "kill"; "prune"].

(** A word of small letters that does not end in [i], as each marker
    is.  (A final [i] could also be written as U+0130, whose lower case
    is [i] followed by a combining dot.) *)
Fixpoint lowerWord (w : string) : Prop :=
  match w with
  | EmptyString => True
  | String l w' =>
      isLowerLetter l ∧ (w' = EmptyString → l ≠ "i"%char) ∧ lowerWord w'
  end.

(** Two characters that are equal up to the case of an ASCII letter, and
    two strings that differ in the case of their ASCII letters alone. *)
Definition sameLetter (a b : ascii) : Prop :=
  a = b
  ∨ (isLowerLetter a ∧ b = capitalOf a)
  ∨ (isLowerLetter b ∧ a = capitalOf b).

Inductive equalIgnoringCase : string -> string -> Prop :=
| eic_nil : equalIgnoringCase "" ""
| eic_cons a b s t :
    sameLetter a b -> equalIgnoringCase s t ->
    equalIgnoringCase (String a s) (String b t).

(** [s] contains [w] as it is. *)
Definition contains (s w : string) : Prop :=
  ∃ pre post, s = pre +:+ w +:+ post.

(** *** The table of tools *)

(** The table of section 6 of the specification: tool name and required
    parameters. *)
Definition toolTable : list (string * list string) := [
  ("list_containers", []);
  ("container_info", ["container_id"]);
  ("container_logs", ["container_id"]);
  ("container_action", ["container_id"; "action"]);
  ("create_container", ["name"; "image"; "confirm"]);
  ("list_images", []);
  ("list_volumes", []);
  ("list_networks", []);
  ("system_info", []);
  ("deploy_stack", ["name"; "compose_content"; "confirm"])
].

(** List-tools returns exactly one descriptor under the name [n], and
    its schema requires exactly the parameters [req]. *)
Definition describedOnce (n : string) (req : list string) : Prop :=
  ∃ d, descriptorsNamed n = [d] ∧ requiredOf (Tool.inputSchema d) = req.

(** *** The creation payload and the two calls of a creation *)




(** The two requests a successful creation is expected to send. *)
Definition createRequest (env : ProcessEnv.t) (args : Args.t) : Request.t :=
  Request.mk POST
    ("/api/endpoints/" +:+ PORTAINER_ENDPOINT_ID env +:+ "/docker/containers/create")
    [("name", match Args.name args with Some n => PStr n | None => PUndefined end)]
    (CreateBody (createConfig args)).

Definition startRequest (env : ProcessEnv.t) (Id : string) : Request.t :=
  Request.mk POST
    ("/api/endpoints/" +:+ PORTAINER_ENDPOINT_ID env +:+ "/docker/containers/" +:+
     Id +:+ "/start")
    [] NoBody.

(** *** Remote failures *)

(** A logged call whose promise resolved. *)
Definition resolved (call : Request.t * Reply) : Prop :=
  ∃ data, call.2 = Resolved data.


(** A computation stops at the first rejected call: either every call it
    issued resolved and it does not end in an axios error, or it ends in
    the axios error of the last call it issued, all earlier ones having
    resolved. *)
Definition stopsAtRejection {World A : Type} (m : @M World A) : Prop :=
  ∀ st outcome st', m st = (outcome, st') →
  ∃ issued, calls st' = calls st ++ issued ∧
    match outcome with
    | Thrown (AxiosErr e) =>
        ∃ earlier r, issued = earlier ++ [(r, Rejected e)] ∧ Forall resolved earlier
    | _ => Forall resolved issued
    end.

(** *** What the lists show *)

(** The line break of the texts. *)
Definition newline : string := String "010" EmptyString.

(** A name without its first slash: without its leading slash, for the
    names the Docker API gives. *)
Fixpoint withoutFirstSlash (name : string) : string :=
  match name with
  | EmptyString => EmptyString
  | String c rest =>
      if Ascii.eqb c "/" then rest else String c (withoutFirstSlash rest)
  end.

(** One port entry: a published port as host port, colon, container
    port; an unpublished one, which has no public port or the public
    port 0, as the bare container port. *)
Definition portShown (p : Port.t) : string :=
  match p with
  | Port.mk containerPort (Some hostPort) =>
      if decide (hostPort = 0%Z) then pretty containerPort
      else pretty hostPort +:+ ":" +:+ pretty containerPort
  | Port.mk containerPort None => pretty containerPort
  end.

(** The port summary, and what stands for it in the text. *)
Definition portSummary (ports : list Port.t) : string :=
  String.concat ", " (map portShown ports).

Definition portsShown (ports : list Port.t) : string :=
  match ports with
  | [] => "none"
  | _ => portSummary ports
  end.

(** A listed container that has a name and a port list. *)
Definition named (c : Container.t) : Prop :=
  ∃ name rest ports,
    Container.Names c = name :: rest ∧ Container.Ports c = Some ports.

Definition firstName (c : Container.t) : string :=
  match Container.Names c with name :: _ => name | [] => "" end.

Definition portsOf (c : Container.t) : list Port.t :=
  match Container.Ports c with Some ports => ports | None => [] end.

(** The projection of a container that the specification describes. *)
Definition projection (c : Container.t) : Summary.t :=
  {| Summary.id := String.substring 0 12 (Container.Id c);
     Summary.name := withoutFirstSlash (firstName c);
     Summary.image := Container.Image c;
     Summary.status := Container.Status c;
     Summary.state := Container.State c;
     Summary.ports := portSummary (portsOf c) |}.

(** The item of a container in the text of [listContainers]. *)
Definition containerShown (c : Container.t) : string :=
  "📦 " +:+ withoutFirstSlash (firstName c) +:+
    " (" +:+ String.substring 0 12 (Container.Id c) +:+ ")" +:+ newline +:+
  "   Image: " +:+ Container.Image c +:+ newline +:+
  "   Status: " +:+ Container.Status c +:+ newline +:+
  "   Ports: " +:+ portsShown (portsOf c) +:+ newline.

(** The requests of the other list handlers and of an inspection. *)
Definition listImagesRequest (env : ProcessEnv.t) : Request.t :=
  Request.mk GET
    ("/api/endpoints/" +:+ PORTAINER_ENDPOINT_ID env +:+ "/docker/images/json")
    [] NoBody.

Definition listVolumesRequest (env : ProcessEnv.t) : Request.t :=
  Request.mk GET
    ("/api/endpoints/" +:+ PORTAINER_ENDPOINT_ID env +:+ "/docker/volumes")
    [] NoBody.

Definition listNetworksRequest (env : ProcessEnv.t) : Request.t :=
  Request.mk GET
    ("/api/endpoints/" +:+ PORTAINER_ENDPOINT_ID env +:+ "/docker/networks")
    [] NoBody.

Definition inspectRequest (env : ProcessEnv.t) (containerId : string) : Request.t :=
  Request.mk GET
    ("/api/endpoints/" +:+ PORTAINER_ENDPOINT_ID env +:+ "/docker/containers/" +:+
     containerId +:+ "/json")
    [] NoBody.

(** The one request [listContainers] sends. *)
Definition listContainersRequest (env : ProcessEnv.t) (all : option bool)
    : Request.t :=
  Request.mk GET
    ("/api/endpoints/" +:+ PORTAINER_ENDPOINT_ID env +:+ "/docker/containers/json")
    [("all", PBool (default true all))] NoBody.

(** *** The calls an invocation issues *)

(** Every call a computation issues is to a request satisfying [P], and
    it issues at most [n] of them. *)
Definition issues {World A : Type} (P : Request.t -> Prop) (n : nat)
    (m : @M World A) : Prop :=
  ∀ st outcome st', m st = (outcome, st') →
  ∃ issued, calls st' = calls st ++ issued
            ∧ Forall (fun call => P call.1) issued
            ∧ length issued ≤ n.

(** The values JavaScript takes for false in a condition, among those
    JSON can carry. *)
Definition isFalsyJson (j : Json) : Prop :=
  j = JNull ∨ j = JBool false ∨ j = JNum 0 ∨ j = JStr "".

(** The call carries a [confirm] that a condition takes for true: any
    value but the four above.  It need not be [true]. *)
Definition confirmed (args : Args.t) : Prop :=
  ∃ j, Args.confirm args = Some j ∧ ¬ isFalsyJson j.

(** The confirmation gate lets the call through: a container action that
    is not destructive or is confirmed, or a confirmed creation or
    deployment. *)
Definition gateOpen (name : string) (args : Args.t) : Prop :=
  (name = "portainer_container_action"
   ∧ ∃ action, Args.action args = Some action
               ∧ (requiresConfirmation action = false
                  ∨ confirmed args))
  ∨ ((name = "portainer_create_container" ∨ name = "portainer_deploy_stack")
     ∧ confirmed args).

(** Every way a computation can end satisfies [Q]. *)
Definition ends {World A : Type} (Q : Outcome A -> Prop) (m : @M World A) : Prop :=
  ∀ st outcome st', m st = (outcome, st') → Q outcome.

(** The ways the [switch] can end for the tool [name]: a result of one
    text item, a TypeError, an axios error, or the MethodNotFound error
    of an unregistered name. *)
Definition switchOutcome (name : string) (o : Outcome ToolResult.t) : Prop :=
  match o with
  | Returned result => ∃ text, result = ToolResult.mk [Content.mk "text" text]
  | Thrown TypeError => True
  | Thrown (AxiosErr _) => True
  | Thrown (McpError code message) =>
      code = MethodNotFound
      ∧ message = "Unknown tool: " +:+ name
      ∧ name ∉ map Tool.name listTools
  end.

(** The one request [deployStack] sends. *)
Definition stackRequest (env : ProcessEnv.t) (args : Args.t) : Request.t :=
  Request.mk POST
    ("/api/stacks?endpointId=" +:+ PORTAINER_ENDPOINT_ID env +:+
     "&method=string&type=2")
    []
    (StackBody (StackData.mk (Args.name args) (Args.compose_content args)
                             (envOrEmpty (Args.env args)))).

(** The one request [containerAction] sends. *)
Definition actionRequest (env : ProcessEnv.t) (containerId : option string)
    (action : string) : Request.t :=
  Request.mk POST
    ("/api/endpoints/" +:+ PORTAINER_ENDPOINT_ID env +:+ "/docker/containers/" +:+
     match containerId with Some id => id | None => "undefined" end +:+
     "/" +:+ action)
    [] NoBody.

(** *** Defaults *)

(** The default a schema of the registry advertises for a parameter. *)
Definition advertisedDefault (tool param : string) : option Literal :=
  d ← head (descriptorsNamed tool);
  s ← propertyOf (Tool.inputSchema d) param;
  Schema.default s.

(** The arguments with every missing defaulted parameter filled in. *)
Definition withDefaults (args : Args.t) : Args.t :=
  Args.mk
    (Some (default true (Args.all args)))
    (Args.container_id args)
    (Some (default 100%Z (Args.tail args)))
    (Args.action args)
    (Some (default (JBool false) (Args.confirm args)))
    (Args.name args)
    (Args.image args)
    (Args.env args)
    (Args.ports args)
    (Args.volumes args)
    (Some (default "unless-stopped" (Args.restart_policy args)))
    (Args.compose_content args).

(** *** The registry *)

(** The names of the parameters a schema declares. *)
Definition declared (s : Schema.t) : list string :=
  match Schema.properties s with
  | Some props => map fst props
  | None => []
  end.

(** A parameter schema whose default, when it has both a default and an
    enumeration, is one of the enumerated strings. *)
Definition defaultInEnum (s : Schema.t) : Prop :=
  match Schema.default s, Schema.enum s with
  | Some (LStr d), Some allowed => d ∈ allowed
  | Some _, Some _ => False
  | _, _ => True
  end.

(* ================================================================== *)
(** ** Sample inputs                                                   *)
(* ================================================================== *)

(** A remote API that answers from a fixed script, whatever is asked,
    and is unreachable once the script is exhausted. *)
Definition scripted (w : list Reply) (r : Request.t) : Reply * list Reply :=
  match w with
  | reply :: rest => (reply, rest)
  | [] => (Rejected (AxiosError.mk None "Network Error"), [])
  end.

(** [JSON.stringify] on the values of [Json], for running the handlers
    on the sample inputs: a string between double quotes with its
    quotes, backslashes and control characters escaped, an array and an
    object without spaces. *)
Definition doubleQuote : string := String "034" EmptyString.

Definition hexDigit (n : nat) : ascii :=
  ascii_of_nat (if n <? 10 then 48 + n else 87 + n).

Definition escapeChar (c : ascii) : string :=
  let n := nat_of_ascii c in
  if n =? 34 then "\" +:+ doubleQuote
  else if n =? 92 then "\\"
  else if n =? 8 then "\b"
  else if n =? 9 then "\t"
  else if n =? 10 then "\n"
  else if n =? 12 then "\f"
  else if n =? 13 then "\r"
  else if n <? 32 then
    "\u00" +:+ String (hexDigit (n / 16)) (String (hexDigit (n mod 16)) EmptyString)
  else String c EmptyString.

Fixpoint escaped (s : string) : string :=
  match s with
  | EmptyString => EmptyString
  | String c r => escapeChar c +:+ escaped r
  end.

Definition quoted (s : string) : string :=
  doubleQuote +:+ escaped s +:+ doubleQuote.

Fixpoint sampleStringify (j : Json) : string :=
  match j with
  | JNull => "null"
  | JBool true => "true"
  | JBool false => "false"
  | JNum n => pretty n
  | JStr s => quoted s
  | JArr l => "[" +:+ String.concat "," (map sampleStringify l) +:+ "]"
  | JObj l =>
      "{" +:+
      String.concat ","
        (map (fun '(key, value) => quoted key +:+ ":" +:+ sampleStringify value) l)
      +:+ "}"
  end.

(** A stand-in for the number renderers, where no number is rendered. *)
Definition sampleNumber (n : Z) : string := Js.showZ n.

(** [(n / d).toFixed(2)] for a power of two [d]: the quotient rounded to
    hundredths, halves away from zero, with two decimals. *)
Definition twoDigits (n : Z) : string :=
  if (n <? 10)%Z then "0" +:+ pretty n else pretty n.

Definition toFixed2 (n d : Z) : string :=
  let hundredths := ((200 * Z.abs n + d) / (2 * d))%Z in
  (if (n <? 0)%Z then "-" else "") +:+
  pretty (hundredths / 100)%Z +:+ "." +:+ twoDigits (hundredths mod 100)%Z.

Definition sampleMegabytes (n : Z) : string := toFixed2 n 1048576.

Definition sampleGigabytes (n : Z) : string := toFixed2 n 1073741824.

(** [new Date(n * 1000).toLocaleDateString()] in the en-US locale and
    the UTC time zone: month/day/year of the day [n / 86400] of the
    epoch, by the civil calendar. *)
Definition sampleDate (n : Z) : string :=
  let z := (n / 86400 + 719468)%Z in
  let era := (z / 146097)%Z in
  let doe := (z - era * 146097)%Z in
  let yoe := ((doe - doe / 1460 + doe / 36524 - doe / 146096) / 365)%Z in
  let doy := (doe - (365 * yoe + yoe / 4 - yoe / 100))%Z in
  let mp := ((5 * doy + 2) / 153)%Z in
  let d := (doy - (153 * mp + 2) / 5 + 1)%Z in
  let m := (if (mp <? 10)%Z then mp + 3 else mp - 9)%Z in
  let y := (yoe + era * 400 + (if (m <=? 2)%Z then 1 else 0))%Z in
  pretty m +:+ "/" +:+ pretty d +:+ "/" +:+ pretty y.

Definition sampleEnv : ProcessEnv.t :=
  ProcessEnv.mk None (Some "ptr_0123456789") None.

Definition noTokenEnv : ProcessEnv.t :=
  ProcessEnv.mk (Some "http://nas:9000") None (Some "2").

(** The server of the samples: scripted remote, token configured. *)
Definition sampleCall (request : ToolCall.t) (script : list Reply)
    : Outcome ToolResult.t * State :=
  callTool scripted sampleStringify sampleMegabytes sampleGigabytes sampleDate
    sampleEnv request (mkState script []).

Definition listAll : ToolCall.t :=
  ToolCall.mk "portainer_list_containers" Args.empty.

Definition stopWeb : Args.t :=
  Args.mk None (Some "web") None (Some "stop") None None None None None None None None.

(** create_container with one port pair and one volume pair. *)
Definition createWeb : Args.t :=
  Args.mk None None None None (Some (JBool true)) (Some "web") (Some "nginx:latest") None
          (Some [PortMapping.mk 8080 80])
          (Some [VolumeMapping.mk "/srv/www" "/usr/share/nginx/html"])
          None None.


Definition webContainer : Container.t :=
  Container.mk "0123456789abcdef0123" ["/web"] "nginx:latest" "Up 2 hours" "running"
    (Some [Port.mk 80 (Some 8080%Z); Port.mk 443 None]).

(** A container whose name has a slash, but not in front, and that
    has no port. *)
Definition slashNamedContainer : Container.t :=
  Container.mk "89abcdef0123456789ab" ["web/db"] "postgres:16" "Up 2 hours" "running"
    (Some []).

(** A container listed without its [Ports] field. *)
Definition portlessContainer : Container.t :=
  Container.mk "0123456789abcdef0123" ["/web"] "nginx:latest" "Exited (0)" "exited"
    None.

(** An inspection result without its [Mounts] field. *)
Definition mountlessInspect : Inspect.t :=
  Inspect.mk "/web" "0123456789abcdef0123" "running" "2024-01-01T00:00:00Z"
    "nginx:latest" [] "no" None [].

(** An inspection result with no mount. *)
Definition bareInspect : Inspect.t :=
  Inspect.mk "/web" "0123456789abcdef0123" "running" "2024-01-01T00:00:00Z"
    "nginx:latest" ["PATH=/usr/bin"] "no" (Some []) [("bridge", JObj [])].

Definition sampleImage : Image.t :=
  Image.mk "sha256:0123456789abcdef0123456789abcdef" None 1048576 1700000000.

Definition sampleNetwork : Network.t :=
  Network.mk "fedcba9876543210fedc" "bridge" "bridge" "local".

(** A confirmed stop, a start, a call without action, a deployment. *)
Definition confirmedStop : Args.t :=
  Args.mk None (Some "web") None (Some "stop") (Some (JBool true)) None None None None None
          None None.

(** A stop whose [confirm] is the string "false". *)
Definition stopSaidFalse : Args.t :=
  Args.mk None (Some "web") None (Some "stop") (Some (JStr "false")) None None None
          None None None None.

Definition startWeb : Args.t :=
  Args.mk None (Some "web") None (Some "start") None None None None None None
          None None.

Definition actionless : Args.t :=
  Args.mk None (Some "web") None None (Some (JBool true)) None None None None None None None.

Definition deployBlog : Args.t :=
  Args.mk None None None None (Some (JBool true)) (Some "blog") None None None None None
          (Some "services: {}").

(* ================================================================== *)
(** ** Facts about the string primitives                               *)
(* ================================================================== *)

Module JsFacts.

#[local] Arguments String.append !_ _ : simpl nomatch.

Lemma app_assoc (a b c : string) : (a +:+ b) +:+ c = a +:+ (b +:+ c).
Proof. induction a as [|x a IH]; simpl; [reflexivity | now rewrite IH]. Qed.

Lemma app_nil_r (a : string) : a +:+ "" = a.
Proof. induction a as [|x a IH]; simpl; [reflexivity | now rewrite IH]. Qed.

Lemma length_app (a b : string) :
  String.length (a +:+ b) = String.length a + String.length b.
Proof. induction a as [|x a IH]; simpl; [reflexivity | now rewrite IH]. Qed.

Lemma startsWith_spec (w s : string) :
  Js.startsWith s w = true ↔ ∃ post, s = w +:+ post.
Proof.
  revert s. induction w as [|a w IH]; intros s; simpl.
  - split; [intros _; now exists s | reflexivity].
  - destruct s as [|b s].
    + split; [discriminate | intros [post H]; discriminate].
    + rewrite andb_true_iff, Ascii.eqb_eq, IH. split.
      * intros [-> [post ->]]. now exists post.
      * intros [post H]. injection H as -> ->. split; [reflexivity | now exists post].
Qed.

Lemma includes_spec (s w : string) :
  Js.includes s w = true ↔ contains s w.
Proof.
  unfold contains. induction s as [|c s IH].
  - simpl. rewrite orb_false_r, startsWith_spec. split.
    + intros [post H]. now exists "", post.
    + intros [pre [post H]]. destruct pre; [now exists post | discriminate].
  - cbn [Js.includes]. rewrite orb_true_iff, startsWith_spec, IH. split.
    + intros [[post H] | [pre [post H]]].
      * now exists "", post.
      * exists (String c pre), post. simpl. now rewrite H.
    + intros [pre [post H]]. destruct pre as [|c' pre].
      * left. now exists post.
      * right. simpl in H. injection H as _ H. now exists pre, post.
Qed.

Lemma nat_of_ascii_inj (a b : ascii) : nat_of_ascii a = nat_of_ascii b → a = b.
Proof.
  intros H. rewrite <- (ascii_nat_embedding a), <- (ascii_nat_embedding b).
  now rewrite H.
Qed.

Lemma is_upper_range (c : ascii) :
  Js.is_upper c = true ↔ 65 ≤ nat_of_ascii c ≤ 90.
Proof.
  unfold Js.is_upper. rewrite andb_true_iff, !Nat.leb_le. reflexivity.
Qed.

Lemma nat_of_lower_char (c : ascii) :
  nat_of_ascii (Js.lower_char c) =
  if Js.is_upper c then nat_of_ascii c + 32 else nat_of_ascii c.
Proof.
  unfold Js.lower_char. destruct (Js.is_upper c) eqn:E; [|reflexivity].
  apply is_upper_range in E. apply nat_ascii_embedding. lia.
Qed.

Lemma nat_of_capitalOf (l : ascii) :
  isLowerLetter l → nat_of_ascii (capitalOf l) = nat_of_ascii l - 32.
Proof.
  unfold isLowerLetter, capitalOf. intros H. apply nat_ascii_embedding. lia.
Qed.

(** A character has the small letter [l] for lower case exactly when it
    is [l] or the capital of [l]. *)
Lemma lower_char_letter (c l : ascii) :
  isLowerLetter l → Js.lower_char c = l ↔ c = l ∨ c = capitalOf l.
Proof.
  intros Hl. pose proof (nat_of_capitalOf l Hl) as Hc.
  unfold isLowerLetter in Hl. split.
  - intros H. apply (f_equal nat_of_ascii) in H. rewrite nat_of_lower_char in H.
    destruct (Js.is_upper c) eqn:E.
    + right. apply nat_of_ascii_inj. lia.
    + left. now apply nat_of_ascii_inj.
  - intros [-> | ->]; apply nat_of_ascii_inj; rewrite nat_of_lower_char.
    + destruct (Js.is_upper l) eqn:E; [apply is_upper_range in E; lia | reflexivity].
    + destruct (Js.is_upper (capitalOf l)) eqn:E; [lia |].
      assert (Js.is_upper (capitalOf l) = true) by (apply is_upper_range; lia).
      congruence.
Qed.

Lemma lower_char_sameLetter (a b : ascii) :
  sameLetter a b → Js.lower_char a = Js.lower_char b.
Proof.
  intros [E | [[H E] | [H E]]]; [now rewrite E | |]; subst.
  - transitivity a; [| symmetry]; apply lower_char_letter; auto.
  - transitivity b; [| symmetry]; apply lower_char_letter; auto.
Qed.

(** *** [toLowerCase], case by case on how the string starts *)

Lemma foldSpecial_unfold (c c2 c3 : ascii) (r : string) :
  Js.foldSpecial (String c (String c2 (String c3 r))) =
  if Ascii.eqb c "196" && Ascii.eqb c2 "176" then
    String "i" (String "204" (String "135" (Js.foldSpecial (String c3 r))))
  else if Ascii.eqb c "226" && Ascii.eqb c2 "132" && Ascii.eqb c3 "170" then
    String "k" (Js.foldSpecial r)
  else String c (Js.foldSpecial (String c2 (String c3 r))).
Proof. reflexivity. Qed.

Lemma foldSpecial_unfold2 (c c2 : ascii) :
  Js.foldSpecial (String c (String c2 "")) =
  if Ascii.eqb c "196" && Ascii.eqb c2 "176" then
    String "i" (String "204" (String "135" ""))
  else String c (Js.foldSpecial (String c2 "")).
Proof. reflexivity. Qed.

(** A string is empty, starts with U+0130, starts with the Kelvin sign,
    or starts with a character that is put in lower case on its own. *)
Lemma toLowerCase_cases (s : string) :
  s = ""
  ∨ (∃ r, s = String "196" (String "176" r)
          ∧ Js.toLowerCase s
            = String "i" (String "204" (String "135" (Js.toLowerCase r))))
  ∨ (∃ r, s = kelvinSign +:+ r
          ∧ Js.toLowerCase s = String "k" (Js.toLowerCase r))
  ∨ (∃ c r, s = String c r
            ∧ Js.toLowerCase s = String (Js.lower_char c) (Js.toLowerCase r)
            ∧ (∀ r', s ≠ String "196" (String "176" r'))
            ∧ (∀ r', s ≠ kelvinSign +:+ r')).
Proof.
  destruct s as [|c [|c2 [|c3 r]]].
  - now left.
  - right; right; right. exists c, "". repeat split; intros r' H; discriminate H.
  - destruct (Ascii.eqb c "196" && Ascii.eqb c2 "176") eqn:E.
    + apply andb_true_iff in E as [E1 E2].
      apply Ascii.eqb_eq in E1, E2. subst c c2.
      right; left. exists "". split; reflexivity.
    + right; right; right. exists c, (String c2 ""). repeat split.
      * unfold Js.toLowerCase. rewrite foldSpecial_unfold2, E. reflexivity.
      * intros r' H. injection H as -> -> _. discriminate E.
      * intros r' H. discriminate H.
  - destruct (Ascii.eqb c "196" && Ascii.eqb c2 "176") eqn:E.
    + apply andb_true_iff in E as [E1 E2].
      apply Ascii.eqb_eq in E1, E2. subst c c2.
      right; left. exists (String c3 r). split; reflexivity.
    + destruct (Ascii.eqb c "226" && Ascii.eqb c2 "132" && Ascii.eqb c3 "170") eqn:E'.
      * apply andb_true_iff in E' as [E1 E3]. apply andb_true_iff in E1 as [E1 E2].
        apply Ascii.eqb_eq in E1, E2, E3. subst c c2 c3.
        right; right; left. exists r. split; reflexivity.
      * right; right; right. exists c, (String c2 (String c3 r)). repeat split.
        -- unfold Js.toLowerCase. rewrite foldSpecial_unfold, E, E'. reflexivity.
        -- intros r' H. injection H as -> -> _. discriminate E.
        -- intros r' H. injection H as -> -> -> _. discriminate E'.
Qed.

(** *** Spelling *)

Lemma writes_inv (c : string) (l : ascii) :
  isLowerLetter l → writes c l →
  (∃ x, c = String x "" ∧ Js.lower_char x = l ∧ nat_of_ascii x < 128)
  ∨ (c = kelvinSign ∧ l = "k"%char).
Proof.
  intros Hl H. pose proof (nat_of_capitalOf l Hl) as Hc.
  destruct H as [l | l _ |].
  - left. exists l. repeat split.
    + apply lower_char_letter; auto.
    + unfold isLowerLetter in Hl. lia.
  - left. exists (capitalOf l). repeat split.
    + apply lower_char_letter; auto.
    + unfold isLowerLetter in Hl. lia.
  - now right.
Qed.

Lemma spelledAs_inv (mid : string) (l : ascii) (w : string) :
  spelledAs mid (String l w) →
  ∃ c rest, mid = c +:+ rest ∧ writes c l ∧ spelledAs rest w.
Proof. inversion 1; subst. eauto. Qed.

(** What spells a word starts with an ASCII character or with the
    Kelvin sign. *)
Lemma spelledAs_first (mid w post : string) :
  lowerWord w → w ≠ "" → spelledAs mid w →
  ∃ x rest, mid +:+ post = String x rest
            ∧ (nat_of_ascii x < 128 ∨ x = "226"%char).
Proof.
  intros Hw Hne H. destruct w as [|l w]; [congruence |].
  destruct Hw as (Hl & _).
  apply spelledAs_inv in H as (c & rest & -> & Hc & _).
  apply writes_inv in Hc as [(x & -> & _ & Hx) | [-> _]]; [| | exact Hl].
  - exists x, (rest +:+ post). split; [reflexivity | now left].
  - eexists _, _. split; [reflexivity | now right].
Qed.

(** The lower case of [s] starts with the word [w] exactly when [s]
    starts with a spelling of [w]. *)
Lemma startsWith_toLowerCase (w s : string) :
  lowerWord w →
  Js.startsWith (Js.toLowerCase s) w = true ↔
  ∃ mid post, s = mid +:+ post ∧ spelledAs mid w.
Proof.
  revert s. induction w as [|l w IH]; intros s Hw.
  - simpl. split; [| reflexivity].
    intros _. exists "", s. split; [reflexivity | constructor].
  - destruct Hw as (Hl & Hi & Hw).
    assert (Hfirst : ∀ mid post, spelledAs mid (String l w) →
              ∃ x rest, mid +:+ post = String x rest
                        ∧ (nat_of_ascii x < 128 ∨ x = "226"%char)).
    { intros mid post H.
      apply (spelledAs_first mid (String l w)); [| discriminate | exact H].
      exact (conj Hl (conj Hi Hw)). }
    destruct (toLowerCase_cases s)
      as [-> | [(r & -> & E) | [(r & -> & E) | (c & r & -> & E & Hd & Hk)]]].
    + split; [discriminate |].
      intros (mid & post & H & Hs).
      destruct (Hfirst mid post Hs) as (x & rest & Hx & _). congruence.
    + rewrite E. split.
      * cbn [Js.startsWith]. intros H.
        apply andb_true_iff in H as [H1 H2]. apply Ascii.eqb_eq in H1. subst l.
        destruct w as [|l2 w]; [exfalso; now apply Hi |].
        cbn [Js.startsWith] in H2. apply andb_true_iff in H2 as [H2 _].
        apply Ascii.eqb_eq in H2. subst l2.
        destruct Hw as (Hl2 & _). unfold isLowerLetter in Hl2. vm_compute in Hl2. lia.
      * intros (mid & post & H & Hs).
        destruct (Hfirst mid post Hs) as (x & rest & Hx & Hr).
        rewrite <- H in Hx. injection Hx as <- _.
        destruct Hr as [Hr | Hr]; [vm_compute in Hr; lia | discriminate Hr].
    + rewrite E. cbn [Js.startsWith].
      rewrite andb_true_iff, Ascii.eqb_eq, IH by exact Hw. split.
      * intros (-> & mid & post & -> & Hs).
        exists (kelvinSign +:+ mid), post. split; [now rewrite app_assoc |].
        constructor; [constructor | exact Hs].
      * intros (mid & post & H & Hs).
        apply spelledAs_inv in Hs as (c & rest & -> & Hc & Hs).
        apply writes_inv in Hc as [(x & -> & _ & Hx) | [-> ->]]; [| | exact Hl].
        -- simpl in H. injection H as <- _. vm_compute in Hx. lia.
        -- split; [reflexivity |]. exists rest, post. split; [| exact Hs].
           rewrite app_assoc in H. simpl in H. now injection H.
    + rewrite E. cbn [Js.startsWith].
      rewrite andb_true_iff, Ascii.eqb_eq, IH by exact Hw. split.
      * intros (Hc & mid & post & -> & Hs).
        exists (String c mid), post. split; [reflexivity |].
        change (String c mid) with (String c "" +:+ mid).
        constructor; [| exact Hs].
        symmetry in Hc. apply lower_char_letter in Hc as [-> | ->]; [| | exact Hl].
        -- constructor.
        -- now constructor.
      * intros (mid & post & H & Hs).
        apply spelledAs_inv in Hs as (c0 & rest & -> & Hc & Hs).
        apply writes_inv in Hc as [(x & -> & Hx & _) | [-> ->]]; [| | exact Hl].
        -- simpl in H. injection H as -> ->. split; [now symmetry |].
           now exists rest, post.
        -- exfalso. apply (Hk (rest +:+ post)). now rewrite H, app_assoc.
Qed.

Lemma startsWith_first (c : ascii) (t w : string) :
  lowerWord w → w ≠ "" → Js.startsWith (String c t) w = true → isLowerLetter c.
Proof.
  intros Hw Hne H. destruct w as [|l w]; [congruence |].
  destruct Hw as (Hl & _). cbn [Js.startsWith] in H.
  apply andb_true_iff in H as [H _]. apply Ascii.eqb_eq in H. now subst.
Qed.

(** The substring test on the lower case of [s] is the case-insensitive
    substring test on [s], for a word of small letters. *)
Lemma includes_toLowerCase (s w : string) :
  lowerWord w → w ≠ "" →
  Js.includes (Js.toLowerCase s) w = true ↔ containsIgnoringCase s w.
Proof.
  intros Hw Hne. unfold containsIgnoringCase.
  remember (String.length s) as n eqn:Hn. revert s Hn.
  induction n as [n IH] using lt_wf_ind. intros s ->.
  assert (Hhead : Js.startsWith (Js.toLowerCase s) w = true ↔
                  ∃ mid post, s = "" +:+ mid +:+ post ∧ spelledAs mid w)
    by (now apply startsWith_toLowerCase).
  destruct (toLowerCase_cases s)
    as [-> | [(r & -> & E) | [(r & -> & E) | (c & r & -> & E & Hd & Hk)]]].
  - split.
    + intros H. cbn in H. rewrite orb_false_r in H.
      apply Hhead in H as (mid & post & H & Hs). now exists "", mid, post.
    + intros (pre & mid & post & H & Hs).
      destruct (spelledAs_first mid w post Hw Hne Hs) as (x & rest & Hx & _).
      rewrite Hx in H. destruct pre; discriminate H.
  - assert (IHr := IH (String.length r) ltac:(simpl; lia) r eq_refl).
    split.
    + intros H. rewrite E in H. cbn [Js.includes] in H.
      rewrite <- E in H at 1.
      repeat (apply orb_true_iff in H as [H | H]).
      * apply Hhead in H as (mid & post & H & Hs). now exists "", mid, post.
      * apply startsWith_first in H; [| assumption ..].
        vm_compute in H. lia.
      * apply startsWith_first in H; [| assumption ..].
        vm_compute in H. lia.
      * apply IHr in H as (pre & mid & post & -> & Hs).
        now exists (String "196" (String "176" pre)), mid, post.
    + intros (pre & mid & post & H & Hs).
      destruct (spelledAs_first mid w post Hw Hne Hs) as (x & rest & Hx & Hr).
      rewrite Hx in H.
      assert (Hnot : x ≠ "196"%char ∧ x ≠ "176"%char).
      { split; intros ->; destruct Hr as [Hr | Hr];
          (vm_compute in Hr; lia) || discriminate Hr. }
      destruct pre as [|p1 [|p2 pre]]; simpl in H.
      * injection H as H _. now destruct Hnot as [[] _].
      * injection H as _ H _. now destruct Hnot as [_ []].
      * injection H as _ _ H. rewrite E. cbn [Js.includes].
        rewrite !orb_true_iff. right. right. right.
        apply IHr. exists pre, mid, post. now rewrite Hx.
  - assert (IHr := IH (String.length r)
                     ltac:(rewrite length_app; simpl; lia) r eq_refl).
    split.
    + intros H. rewrite E in H. cbn [Js.includes] in H. rewrite <- E in H.
      apply orb_true_iff in H as [H | H].
      * apply Hhead in H as (mid & post & H & Hs). now exists "", mid, post.
      * apply IHr in H as (pre & mid & post & -> & Hs).
        exists (kelvinSign +:+ pre), mid, post. now rewrite app_assoc.
    + intros (pre & mid & post & H & Hs).
      destruct (spelledAs_first mid w post Hw Hne Hs) as (x & rest & Hx & Hr).
      assert (Hnot : x ≠ "132"%char ∧ x ≠ "170"%char).
      { split; intros ->; destruct Hr as [Hr | Hr];
          (vm_compute in Hr; lia) || discriminate Hr. }
      destruct pre as [|p1 [|p2 [|p3 pre]]].
      * rewrite E. cbn [Js.includes]. rewrite <- E.
        apply orb_true_iff. left. apply Hhead. now exists mid, post.
      * rewrite Hx in H. simpl in H. injection H as _ H _.
        now destruct Hnot as [[] _].
      * rewrite Hx in H. simpl in H. injection H as _ _ H _.
        now destruct Hnot as [_ []].
      * simpl in H. injection H as _ _ _ H. rewrite E. cbn [Js.includes].
        apply orb_true_iff. right. apply IHr. now exists pre, mid, post.
  - assert (IHr := IH (String.length r) ltac:(simpl; lia) r eq_refl).
    rewrite E. cbn [Js.includes]. rewrite <- E.
    rewrite orb_true_iff, Hhead, IHr. split.
    + intros [(mid & post & H & Hs) | (pre & mid & post & -> & Hs)].
      * now exists "", mid, post.
      * now exists (String c pre), mid, post.
    + intros (pre & mid & post & H & Hs). destruct pre as [|p pre].
      * left. now exists mid, post.
      * right. simpl in H. injection H as _ ->. now exists pre, mid, post.
Qed.

Lemma lowerWord_markers : Forall (fun w => lowerWord w ∧ w ≠ "") markers.
Proof.
  repeat constructor; unfold isLowerLetter; simpl; try lia; discriminate.
Qed.

(** *** Strings that differ in the case of ASCII letters alone *)

Lemma sameLetter_high (a b x : ascii) :
  sameLetter a b → 128 ≤ nat_of_ascii x → a = x ↔ b = x.
Proof.
  intros [E | [[H E] | [H E]]] Hx; [now rewrite E | |];
    pose proof (nat_of_capitalOf _ H) as Hc; unfold isLowerLetter in H;
    split; intros E'; subst; lia.
Qed.

Lemma toLowerCase_equalIgnoringCase (s t : string) :
  equalIgnoringCase s t → Js.toLowerCase s = Js.toLowerCase t.
Proof.
  remember (String.length s) as n eqn:Hn. revert s t Hn.
  induction n as [n IH] using lt_wf_ind. intros s t -> H.
  assert (Hdot : ∀ a b r r', equalIgnoringCase (String a (String b r)) r' →
            a = "196"%char → b = "176"%char →
            ∃ r'', r' = String "196" (String "176" r'') ∧ equalIgnoringCase r r'').
  { intros a b r0 r' H0 -> ->.
    inversion H0 as [|? a' ? t1 Ha H1]; subst.
    inversion H1 as [|? b' ? t2 Hb H2]; subst.
    apply (sameLetter_high _ _ "196"%char) in Ha; [| vm_compute; lia].
    apply (sameLetter_high _ _ "176"%char) in Hb; [| vm_compute; lia].
    exists t2. split; [| exact H2]. f_equal; [now apply Ha | f_equal; now apply Hb]. }
  assert (Hkel : ∀ r r', equalIgnoringCase (kelvinSign +:+ r) r' →
            ∃ r'', r' = kelvinSign +:+ r'' ∧ equalIgnoringCase r r'').
  { intros r0 r' H0. unfold kelvinSign in H0. simpl in H0.
    inversion H0 as [|? a' ? t1 Ha H1]; subst.
    inversion H1 as [|? b' ? t2 Hb H2]; subst.
    inversion H2 as [|? c' ? t3 Hc H3]; subst.
    apply (sameLetter_high _ _ "226"%char) in Ha; [| vm_compute; lia].
    apply (sameLetter_high _ _ "132"%char) in Hb; [| vm_compute; lia].
    apply (sameLetter_high _ _ "170"%char) in Hc; [| vm_compute; lia].
    exists t3. split; [| exact H3]. unfold kelvinSign. simpl.
    f_equal; [now apply Ha | f_equal; [now apply Hb | f_equal; now apply Hc]]. }
  assert (Hsym : ∀ x y, equalIgnoringCase x y → equalIgnoringCase y x).
  { clear. induction 1 as [|a b x y Hab _ IH]; constructor; [| exact IH].
    destruct Hab as [-> | [? | ?]]; [now left | right; now right | right; now left]. }
  destruct (toLowerCase_cases s)
    as [-> | [(r & -> & E) | [(r & -> & E) | (c & r & -> & E & Hd & Hk)]]].
  - inversion H. reflexivity.
  - destruct (Hdot _ _ _ _ H eq_refl eq_refl) as (r'' & -> & Hr).
    rewrite E.
    destruct (toLowerCase_cases (String "196" (String "176" r'')))
      as [E0 | [(r0 & E0 & E') | [(r0 & E0 & _) | (? & ? & _ & _ & Hd' & _)]]];
      [discriminate E0 | | discriminate E0 | now destruct (Hd' r'')].
    injection E0 as <-. rewrite E'. do 3 f_equal.
    now apply (IH (String.length r) ltac:(simpl; lia)).
  - destruct (Hkel _ _ H) as (r'' & -> & Hr).
    rewrite E.
    destruct (toLowerCase_cases (kelvinSign +:+ r''))
      as [E0 | [(r0 & E0 & _) | [(r0 & E0 & E') | (? & ? & _ & _ & _ & Hk')]]];
      [discriminate E0 | discriminate E0 | | now destruct (Hk' r'')].
    unfold kelvinSign in E0. simpl in E0. injection E0 as <-. rewrite E'. f_equal.
    now apply (IH (String.length r) ltac:(rewrite length_app; simpl; lia)).
  - inversion H as [|? c' ? r' Hc Hr]; subst.
    rewrite E.
    destruct (toLowerCase_cases (String c' r'))
      as [E0 | [(r0 & E0 & _) | [(r0 & E0 & _) | (? & ? & E0 & E' & _)]]].
    + discriminate E0.
    + exfalso. rewrite E0 in H. apply Hsym in H.
      destruct (Hdot _ _ _ _ H eq_refl eq_refl) as (r'' & Hs & _).
      now destruct (Hd r'').
    + exfalso. rewrite E0 in H. apply Hsym in H.
      destruct (Hkel _ _ H) as (r'' & Hs & _). now destruct (Hk r'').
    + injection E0 as <- <-. rewrite E'. f_equal.
      * now apply lower_char_sameLetter.
      * now apply (IH (String.length r) ltac:(simpl; lia)).
Qed.

Lemma length_drop (n : nat) (s : string) :
  String.length (Js.drop n s) = String.length s - n.
Proof.
  revert s. induction n as [|n IH]; intros [|c s]; simpl; try reflexivity.
  apply IH.
Qed.

Lemma take_all (n : nat) (s : string) : String.length s ≤ n → Js.take n s = s.
Proof.
  revert s. induction n as [|n IH]; intros [|c s] H; simpl in *;
    try reflexivity; [lia |].
  f_equal. apply IH. lia.
Qed.

Lemma length_take (n : nat) (s : string) :
  String.length (Js.take n s) = Nat.min n (String.length s).
Proof.
  revert s. induction n as [|n IH]; intros [|c s]; simpl; try reflexivity.
  now rewrite IH.
Qed.

(** The library's [substring start length] takes [length] characters
    after dropping [start], as many as there are. *)
Lemma substring_take_drop (n m : nat) (s : string) :
  String.substring n m s = Js.take m (Js.drop n s).
Proof.
  revert n m. induction s as [|c s IH]; intros [|n] [|m]; simpl;
    try reflexivity.
  - f_equal. rewrite IH. reflexivity.
  - apply IH.
  - apply IH.
Qed.

(** [s.substring(a, b)] with [a ≤ b] is the [b - a] characters of [s]
    from index [a] on, or fewer when [s] ends before. *)
Lemma substring_spec (a b : nat) (s : string) :
  a ≤ b → Js.substring a b s = String.substring a (b - a) s.
Proof.
  intros Hab. rewrite substring_take_drop. unfold Js.substring.
  set (len := String.length s).
  destruct (le_lt_dec b len) as [Hb | Hb].
  - rewrite (Nat.min_l a len), (Nat.min_l b len) by lia.
    rewrite Nat.min_l, Nat.max_r by lia. reflexivity.
  - rewrite (Nat.min_r b len) by lia.
    destruct (le_lt_dec a len) as [Ha | Ha].
    + rewrite (Nat.min_l a len) by lia. rewrite Nat.min_l, Nat.max_r by lia.
      rewrite !take_all; [reflexivity | |]; rewrite length_drop; fold len; lia.
    + rewrite (Nat.min_r a len) by lia. rewrite Nat.min_l, Nat.max_r by lia.
      rewrite !take_all; [| rewrite length_drop; fold len; lia
                          | rewrite length_drop; fold len; lia].
      assert (H : ∀ n t, String.length t ≤ n → Js.drop n t = "").
      { clear. induction n as [|n IH]; intros [|c t] H; simpl in *;
          try reflexivity; [lia | apply IH; lia]. }
      rewrite !H by (fold len; lia). reflexivity.
Qed.

Lemma substring_0 (n : nat) (s : string) :
  Js.substring 0 n s = String.substring 0 n s.
Proof. rewrite substring_spec by lia. now rewrite Nat.sub_0_r. Qed.

End JsFacts.

(* ================================================================== *)
(** ** The confirmation gate                                           *)
(* ================================================================== *)

(** The gate is the case-insensitive search for one of the six markers. *)
Lemma requiresConfirmation_spec (action : string) :
  requiresConfirmation action = true ↔
  ∃ marker, In marker markers ∧ containsIgnoringCase action marker.
Proof.
  unfold requiresConfirmation. rewrite existsb_exists.
  change dangerous with markers.
  assert (Hm : ∀ w, In w markers → lowerWord w ∧ w ≠ "").
  { intros w Hin. pose proof JsFacts.lowerWord_markers as H.
    rewrite List.Forall_forall in H. now apply H. }
  split; intros (w & Hin & H); exists w; (split; [exact Hin |]);
    destruct (Hm w Hin) as [Hw Hne];
    now apply (JsFacts.includes_toLowerCase action w Hw Hne).
Qed.

(** C1.  [requiresConfirmation] answers [true] exactly for the action
    names of which some part spells one of the six markers remove,
    delete, stop, restart, kill, prune when case is ignored: each letter
    of the marker written small, or as its capital, or, for k, as the
    Kelvin sign, which [toLowerCase] also turns into k.  So it is [true]
    on each marker, on force-stop and on markers in capitals, and
    [false] on start, pause and unpause, and a marker interrupted by
    another character is not found. *)
Theorem requiresConfirmation_markers :
  (∀ action : string,
     requiresConfirmation action = true ↔
     ∃ marker, In marker ["remove"; "delete"; "stop"; "restart"; "kill"; "prune"]
               ∧ ∃ pre mid post,
                   action = pre +:+ mid +:+ post ∧ spelledAs mid marker)
  ∧ Forall (fun a => requiresConfirmation a = true)
      ["stop"; "restart"; "kill"; "prune"; "remove"; "delete"; "force-stop"]
  ∧ Forall (fun a => requiresConfirmation a = false)
      ["start"; "pause"; "unpause"]
  ∧ Forall (fun a => requiresConfirmation a = true)
      ["STOP"; "Restart"; "docker-KILL-now"; kelvinSign +:+ "ill";
       "S" +:+ kelvinSign +:+ "ILL"]
  ∧ Forall (fun a => requiresConfirmation a = false)
      ["st-op"; "STAR"; "k" +:+ String "196" (String "176" "ll")]
  ∧ spelledAs "StOp" "stop"
  ∧ spelledAs (kelvinSign +:+ "iLL") "kill".
Proof.
  split; [exact requiresConfirmation_spec |].
  do 4 (split; [repeat constructor |]).
  split.
  - change "StOp" with ("S" +:+ "t" +:+ "O" +:+ "p" +:+ "").
    repeat first
      [ apply spelled_nil
      | apply spelled_cons
      | apply writes_small
      | apply (writes_capital "s")
      | apply (writes_capital "o")
      | unfold isLowerLetter; vm_compute; lia ].
  - change (kelvinSign +:+ "iLL")
      with (kelvinSign +:+ "i" +:+ "L" +:+ "L" +:+ "").
    repeat first
      [ apply spelled_nil
      | apply spelled_cons
      | apply writes_kelvin
      | apply writes_small
      | apply (writes_capital "l")
      | unfold isLowerLetter; vm_compute; lia ].
Qed.

(* ================================================================== *)
(** ** The tool registry                                               *)
(* ================================================================== *)

(** C3, as the specification states it, does not hold: list-tools has no
    descriptor under the bare names of the table, already for its first
    row. *)
Lemma registry_has_no_bare_names :
  descriptorsNamed "list_containers" = []
  ∧ ¬ (Forall (fun row => describedOnce row.1 row.2) toolTable).
Proof.
  split; [reflexivity |].
  intros H. apply Forall_inv in H. destruct H as (d & Hd & _).
  vm_compute in Hd. discriminate Hd.
Qed.

(** C3, amended.  Every tool of the table is registered under its name
    prefixed with [portainer_]: list-tools returns exactly one descriptor
    under that name, its schema requires exactly the parameters of the
    table, and the [action] of portainer_container_action is restricted
    to start, stop, restart, pause, unpause.  The registry holds nothing
    else. *)
Theorem registry_matches_table :
  Forall (fun row => describedOnce ("portainer_" +:+ row.1) row.2) toolTable
  ∧ map Tool.name listTools = map (fun row => "portainer_" +:+ row.1) toolTable
  ∧ (∃ d, descriptorsNamed "portainer_container_action" = [d]
          ∧ (propertyOf (Tool.inputSchema d) "action" ≫= Schema.enum)
            = Some ["start"; "stop"; "restart"; "pause"; "unpause"]).
Proof.
  split; [| split].
  - repeat constructor; eexists; split; vm_compute; reflexivity.
  - reflexivity.
  - eexists; split; vm_compute; reflexivity.
Qed.

(* ================================================================== *)
(** ** The creation payload                                            *)
(* ================================================================== *)

Module PayloadFacts.

#[local] Arguments String.append !_ _ : simpl nomatch.








End PayloadFacts.

(* ================================================================== *)
(** ** Remote failures: the handlers stop at the first rejected call   *)
(* ================================================================== *)

Section Rejection.

Context {World : Type}.
Variable respond : World -> Request.t -> Reply * World.

Lemma stops_ret {A} (a : A) : stopsAtRejection (@ret World A a).
Proof.
  intros st outcome st' [= <- <-]. exists []. split; [now rewrite app_nil_r | constructor].
Qed.

Lemma stops_throw_TypeError {A} : stopsAtRejection (@throw World A TypeError).
Proof.
  intros st outcome st' [= <- <-]. exists []. split; [now rewrite app_nil_r | constructor].
Qed.

Lemma stops_throw_McpError {A} code msg :
  stopsAtRejection (@throw World A (McpError code msg)).
Proof.
  intros st outcome st' [= <- <-]. exists []. split; [now rewrite app_nil_r | constructor].
Qed.

Lemma stops_orTypeError {A} (o : option A) : stopsAtRejection (@orTypeError World A o).
Proof. destruct o; [apply stops_ret | apply stops_throw_TypeError]. Qed.

Lemma stops_send (r : Request.t) : stopsAtRejection (send respond r).
Proof.
  intros st outcome st' H. unfold send in H.
  destruct (respond (world st) r) as [reply w]. exists [(r, reply)].
  destruct reply as [data | e]; injection H as <- <-; (split; [reflexivity |]).
  - repeat constructor. now exists data.
  - exists [], r. split; [reflexivity | constructor].
Qed.

Lemma stops_bind {A B} (m : M A) (k : A -> @M World B) :
  stopsAtRejection m → (∀ a, stopsAtRejection (k a)) → stopsAtRejection (bind m k).
Proof.
  intros Hm Hk st outcome st' H. unfold bind in H.
  destruct (m st) as [[a | e] st1] eqn:Em.
  - destruct (Hm _ _ _ Em) as (issued1 & E1 & R1).
    destruct (Hk a _ _ _ H) as (issued2 & E2 & R2).
    exists (issued1 ++ issued2). split; [now rewrite E2, E1, app_assoc |].
    destruct outcome as [b | [code msg | e |]];
      try (apply Forall_app; now split).
    destruct R2 as (earlier & r & -> & R2).
    exists (issued1 ++ earlier), r. split; [now rewrite app_assoc |].
    apply Forall_app. now split.
  - injection H as <- <-. exact (Hm _ _ _ Em).
Qed.

End Rejection.

Create HintDb stops.
#[local] Hint Resolve stops_ret stops_throw_TypeError stops_throw_McpError
  stops_orTypeError stops_send : stops.

(** Decompose a handler along its binds and matches. *)
Ltac stops :=
  repeat first
    [ progress eauto with stops
    | apply stops_bind; [| intros ?]
    | match goal with
      | |- stopsAtRejection (match ?x with _ => _ end) => destruct x
      | |- stopsAtRejection (if ?b then _ else _) => destruct b
      end ].

(* ================================================================== *)
(** ** Facts about the texts                                           *)
(* ================================================================== *)

Module TextFacts.

#[local] Arguments String.append !_ _ : simpl nomatch.

(** The decimal rendering of a number is never empty. *)
Lemma pretty_N_go_length (x : N) (s : string) :
  String.length s ≤ String.length (pretty_N_go x s).
Proof.
  revert s. induction (N.lt_wf_0 x) as [x _ IH]; intros s.
  destruct (decide (x = 0)%N) as [-> | Hx].
  - now rewrite pretty_N_go_0.
  - rewrite pretty_N_go_step by lia.
    etransitivity; [| apply IH; apply N.div_lt; lia]. simpl. lia.
Qed.

Lemma showZ_nonempty (z : Z) : Js.showZ z ≠ "".
Proof.
  assert (HN : ∀ p, pretty (N.pos p) ≠ "").
  { intros p H. unfold pretty, pretty_N in H.
    destruct (decide (N.pos p = 0)%N) as [Hp | _]; [discriminate Hp |].
    rewrite pretty_N_go_step in H by lia.
    apply (f_equal String.length) in H.
    pose proof (pretty_N_go_length (N.pos p `div` 10)
                  (String (pretty_N_char (N.pos p `mod` 10)) "")) as Hlen.
    rewrite H in Hlen. simpl in Hlen. lia. }
  unfold Js.showZ, pretty, pretty_Z. destruct z as [| p | p].
  - discriminate.
  - apply HN.
  - discriminate.
Qed.

Lemma join_nonempty (sep : string) (l : list string) :
  Forall (fun x => x ≠ "") l → (Js.join sep l = "" ↔ l = []).
Proof.
  intros Hall. split; [| now intros ->].
  destruct Hall as [| x l Hx _]; [reflexivity |].
  destruct x as [| c x]; [now destruct Hx |].
  destruct l; discriminate.
Qed.

Lemma portText_nonempty (p : Port.t) : portText p ≠ "".
Proof.
  unfold portText. destruct (Port.PublicPort p) as [pub |];
    [destruct (pub =? 0)%Z |]; try apply showZ_nonempty.
  intros H. apply (f_equal String.length) in H.
  rewrite JsFacts.length_app in H.
  pose proof (showZ_nonempty pub) as Hpub.
  destruct (Js.showZ pub); [now destruct Hpub | discriminate H].
Qed.

(** [join] is the library's [concat]. *)
Lemma join_concat (sep : string) (l : list string) :
  Js.join sep l = String.concat sep l.
Proof.
  induction l as [| x [| y l] IH]; [reflexivity | reflexivity |].
  change (Js.join sep (x :: y :: l)) with (x +:+ sep +:+ Js.join sep (y :: l)).
  now rewrite IH.
Qed.

(** [replace('/', '')] removes the first slash. *)
Lemma replace_slash (s : string) : Js.replace "/" "" s = withoutFirstSlash s.
Proof.
  induction s as [| c s IH]; [reflexivity |].
  cbn [Js.replace withoutFirstSlash Js.startsWith].
  rewrite andb_true_r, Ascii.eqb_sym.
  destruct (Ascii.eqb c "/"); [reflexivity | now rewrite IH].
Qed.

Lemma portText_shown (p : Port.t) : portText p = portShown p.
Proof.
  destruct p as [priv [pub |]]; unfold portText, portShown, Js.showZ; simpl;
    [| reflexivity].
  destruct (Z.eqb_spec pub 0), (decide (pub = 0%Z)); congruence.
Qed.

Lemma portSummary_join (ports : list Port.t) :
  Js.join ", " (map portText ports) = portSummary ports.
Proof.
  unfold portSummary. rewrite join_concat. f_equal.
  apply map_ext. apply portText_shown.
Qed.

(** [ports || 'none'] shows the port summary, or [none] for no port. *)
Lemma orString_portSummary (ports : list Port.t) :
  orString (portSummary ports) "none" = portsShown ports.
Proof.
  destruct ports as [| p ports]; [reflexivity |].
  unfold portsShown. rewrite <- portSummary_join.
  destruct (Js.join ", " (map portText (p :: ports))) eqn:E; [| reflexivity].
  apply join_nonempty in E; [discriminate E |].
  apply Forall_map, Forall_forall. intros q _. apply portText_nonempty.
Qed.

(** The projection of a container that has a name and a port list. *)
Lemma summarize_named (c : Container.t) :
  named c → summarize c = Some (projection c).
Proof.
  intros (name & rest & ports & Hn & Hp).
  unfold summarize, projection, firstName, portsOf. rewrite Hn, Hp. simpl.
  now rewrite JsFacts.substring_0, replace_slash, portSummary_join.
Qed.

Lemma mapM_summarize_named (data : list Container.t) :
  Forall named data → mapM summarize data = Some (map projection data).
Proof.
  induction 1 as [| c data Hc _ IH]; [reflexivity |].
  simpl. rewrite (summarize_named c Hc). simpl. now rewrite IH.
Qed.

Lemma renderSummary_projection (c : Container.t) :
  renderSummary (projection c) = containerShown c.
Proof.
  unfold renderSummary, containerShown, projection. simpl.
  now rewrite orString_portSummary.
Qed.

Lemma containersText_projection (data : list Container.t) :
  containersText (map projection data)
  = "Found " +:+ pretty (length data) +:+ " containers:" +:+ newline +:+ newline +:+
    String.concat newline (map containerShown data).
Proof.
  unfold containersText, Js.showNat. rewrite length_map, join_concat, map_map.
  change nl with newline.
  now rewrite (map_ext _ _ renderSummary_projection).
Qed.

(** Only a container that has a name and a port list is projected. *)
Lemma summarize_Some_named (c : Container.t) (s : Summary.t) :
  summarize c = Some s → named c.
Proof.
  unfold summarize, named. intros H.
  destruct (Container.Names c) as [| name rest]; [discriminate H |].
  destruct (Container.Ports c) as [ports |]; [| discriminate H].
  now exists name, rest, ports.
Qed.

Lemma mapM_summarize_unnamed (data : list Container.t) :
  ¬ Forall named data → mapM summarize data = None.
Proof.
  induction data as [| c data IH]; intros H.
  - destruct H. constructor.
  - simpl. destruct (summarize c) as [s |] eqn:E; [| reflexivity].
    simpl. rewrite IH; [reflexivity |].
    intros Hdata. apply H. constructor; [| exact Hdata].
    now apply (summarize_Some_named c s).
Qed.

(** A container without a port list makes the whole projection fail. *)
Lemma mapM_summarize_absent_ports (data : list Container.t) (c : Container.t) :
  c ∈ data → Container.Ports c = None → mapM summarize data = None.
Proof.
  intros Hin Hports. apply mapM_None. apply Exists_exists. exists c.
  split; [exact Hin |]. unfold summarize. rewrite Hports.
  now destruct (head (Container.Names c)).
Qed.

End TextFacts.

(** Reduce the equality of two texts to that of their lists of items. *)
Ltac same_items :=
  repeat lazymatch goal with
    | |- map _ ?l = map _ ?l => fail
    | |- _ => f_equal
    end.

(* ================================================================== *)
(** ** The call-tool handler                                           *)
(* ================================================================== *)

Section ServerFacts.

Context {World : Type}.
Variable respond : World -> Request.t -> Reply * World.
Variable stringify : Json -> string.
Variable megabytes : Z -> string.
Variable gigabytes : Z -> string.
Variable toLocaleDateString : Z -> string.
Variable env : ProcessEnv.t.

Local Abbreviation dispatch_ :=
  (dispatch respond megabytes gigabytes toLocaleDateString env).
Local Abbreviation callTool_ :=
  (callTool respond stringify megabytes gigabytes toLocaleDateString env).
Local Abbreviation State_ := (@State World).

(** With a token configured, what the [switch] returns is what the
    caller gets, and so is any [McpError] it throws. *)
Lemma callTool_returned name args (st st' : State_) r :
  tokenMissing env = false →
  dispatch_ name args st = (Returned r, st') →
  callTool_ (ToolCall.mk name args) st = (Returned r, st').
Proof.
  intros Htok H. unfold callTool, try_catch. rewrite Htok. simpl. now rewrite H.
Qed.

Lemma callTool_thrown_mcp name args (st st' : State_) code msg :
  tokenMissing env = false →
  dispatch_ name args st = (Thrown (McpError code msg), st') →
  callTool_ (ToolCall.mk name args) st = (Thrown (McpError code msg), st').
Proof.
  intros Htok H. unfold callTool, try_catch. rewrite Htok. simpl. now rewrite H.
Qed.

(** C4.  When the API key is absent from the environment, every call,
    whatever the tool name (read-only, mutating or unknown) and the
    arguments, fails with the error "PORTAINER_TOKEN not configured"
    before the switch is entered: the state of the world and the log of
    remote calls are left as they were.  The test is made anew at each
    call: of any series of calls served, every one fails this way and
    the log never grows. *)
Theorem missing_token_fails_every_call (request : ToolCall.t)
    (requests : list ToolCall.t) (st : State_) :
  ProcessEnv.PORTAINER_TOKEN env = None →
  let misconfigured : Outcome ToolResult.t :=
    Thrown (McpError InternalError "PORTAINER_TOKEN not configured") in
  callTool_ request st = (misconfigured, st)
  ∧ serve respond stringify megabytes gigabytes toLocaleDateString env requests st
    = (map (fun _ => misconfigured) requests, st).
Proof.
  intros H misconfigured.
  assert (Hcall : ∀ r, callTool_ r st = (misconfigured, st)).
  { intros r. unfold callTool, tokenMissing, PORTAINER_TOKEN. now rewrite H. }
  split; [apply Hcall |].
  induction requests as [| r rest IH]; simpl; [reflexivity |].
  now rewrite Hcall, IH.
Qed.

(** C7.  A call whose name is none of the registered tool names falls
    to the [default] case: it fails with the MethodNotFound error
    whose message is "Unknown tool: " followed by the requested name,
    and no remote call is issued.  With a token configured this is
    also what the caller receives. *)
Theorem unknown_tool_not_found (name : string) (args : Args.t) (st : State_) :
  name ∉ map Tool.name listTools →
  let failure : Outcome ToolResult.t :=
    Thrown (McpError MethodNotFound ("Unknown tool: " +:+ name)) in
  dispatch_ name args st = (failure, st)
  ∧ (tokenMissing env = false →
     callTool_ (ToolCall.mk name args) st = (failure, st))
  ∧ contains ("Unknown tool: " +:+ name) name.
Proof.
  intros Hname failure.
  assert (Hd : dispatch_ name args st = (failure, st)).
  { unfold listTools, tools in Hname. simpl in Hname.
    rewrite !not_elem_of_cons in Hname.
    destruct Hname as (H1 & H2 & H3 & H4 & H5 & H6 & H7 & H8 & H9 & H10 & _).
    unfold dispatch.
    apply String.eqb_neq in H1, H2, H3, H4, H5, H6, H7, H8, H9, H10.
    now rewrite H1, H2, H3, H4, H5, H6, H7, H8, H9, H10. }
  split; [exact Hd | split].
  - intros Htok. now apply callTool_thrown_mcp.
  - exists "Unknown tool: ", "". now rewrite JsFacts.app_nil_r.
Qed.

Lemma callTool_state name args (st : State_) :
  tokenMissing env = false →
  (callTool_ (ToolCall.mk name args) st).2 = (dispatch_ name args st).2.
Proof.
  intros Htok. unfold callTool, try_catch. rewrite Htok. simpl.
  destruct (dispatch_ name args st) as [[r | e] st']; [reflexivity |].
  unfold rewrap. destruct e as [code msg | [[[status data] |] message] |];
    reflexivity.
Qed.

(** C2.  A portainer_container_action call whose action requires
    confirmation, and any portainer_create_container or
    portainer_deploy_stack call, made with [confirm] absent or false,
    returns normally a result of one text item, the warning that names
    what needs confirmation, and issues no remote call: the state and
    the log are unchanged.  With a token configured this is also what
    the caller receives. *)
Theorem unconfirmed_call_only_warns (args : Args.t) (st : State_) :
  Args.confirm args = None ∨ Args.confirm args = Some (JBool false) →
  (∀ action,
     Args.action args = Some action →
     requiresConfirmation action = true →
     let warning :=
       ToolResult.mk
         [Content.mk "text"
            ("⚠️ This action (" +:+ action +:+
             ") requires confirmation. Please set confirm=true to proceed.")] in
     dispatch_ "portainer_container_action" args st = (Returned warning, st)
     ∧ (tokenMissing env = false →
        callTool_ (ToolCall.mk "portainer_container_action" args) st
        = (Returned warning, st)))
  ∧ (let warning :=
       ToolResult.mk
         [Content.mk "text"
            "⚠️ Creating a container requires confirmation. Please set confirm=true to proceed."] in
     dispatch_ "portainer_create_container" args st = (Returned warning, st)
     ∧ (tokenMissing env = false →
        callTool_ (ToolCall.mk "portainer_create_container" args) st
        = (Returned warning, st)))
  ∧ (let warning :=
       ToolResult.mk
         [Content.mk "text"
            "⚠️ Deploying a stack requires confirmation. Please set confirm=true to proceed."] in
     dispatch_ "portainer_deploy_stack" args st = (Returned warning, st)
     ∧ (tokenMissing env = false →
        callTool_ (ToolCall.mk "portainer_deploy_stack" args) st
        = (Returned warning, st))).
Proof.
  intros Hconfirm.
  assert (Hfalsy : falsy (Args.confirm args) = true)
    by (destruct Hconfirm as [-> | ->]; reflexivity).
  split; [| split].
  - intros action Haction Hreq warning.
    assert (Hd : dispatch_ "portainer_container_action" args st
                 = (Returned warning, st)).
    { unfold dispatch. simpl. unfold bind, orTypeError. rewrite Haction. simpl.
      now rewrite Hreq, Hfalsy. }
    split; [exact Hd |].
    intros Htok. now apply callTool_returned.
  - intros warning.
    assert (Hd : dispatch_ "portainer_create_container" args st
                 = (Returned warning, st)).
    { unfold dispatch. simpl. now rewrite Hfalsy. }
    split; [exact Hd |].
    intros Htok. now apply callTool_returned.
  - intros warning.
    assert (Hd : dispatch_ "portainer_deploy_stack" args st
                 = (Returned warning, st)).
    { unfold dispatch. simpl. now rewrite Hfalsy. }
    split; [exact Hd |].
    intros Htok. now apply callTool_returned.
Qed.

(** What [createContainer] runs, with its two requests named. *)
Lemma createContainer_unfold (args : Args.t) (st : State_) :
  createContainer respond env args st =
  bind (send respond (createRequest env args))
       (fun created =>
          bind (send respond (startRequest env (showId (dataId created))))
               (fun _ =>
                  match dataId created with
                  | IdString Id =>
                      ret (textResult (createdText (Args.name args) Id))
                  | _ => throw TypeError
                  end)) st.
Proof. reflexivity. Qed.


(** Every branch of the [switch] stops at the first rejected call. *)
Lemma dispatch_stops (name : string) (args : Args.t) :
  stopsAtRejection (dispatch_ name args).
Proof.
  unfold dispatch, listContainers, getContainerInfo, getContainerLogs,
    containerAction, createContainer, listImages, listVolumes, listNetworks,
    getSystemInfo, deployStack, api_get, api_post.
  stops.
Qed.


Local Abbreviation listContainers_ := (listContainers respond env).
Local Abbreviation listImages_ :=
  (listImages respond megabytes toLocaleDateString env).
Local Abbreviation listVolumes_ := (listVolumes respond env).
Local Abbreviation listNetworks_ := (listNetworks respond env).
Local Abbreviation getContainerInfo_ := (getContainerInfo respond env).

(** What a handler returns once its one request is answered. *)
Lemma listContainers_text (all : option bool) (data : list Container.t)
    (st : State_) (w1 : World) :
  respond (world st) (listContainersRequest env all)
  = (Resolved (DContainers data), w1) →
  Forall named data →
  listContainers_ all st
  = (Returned
       (ToolResult.mk
          [Content.mk "text"
             ("Found " +:+ pretty (length data) +:+ " containers:" +:+
              newline +:+ newline +:+
              String.concat newline (map containerShown data))]),
     mkState w1 (calls st ++ [(listContainersRequest env all,
                               Resolved (DContainers data))])).
Proof.
  intros Hreply Hdata. unfold listContainers, bind, api_get, send.
  change (Request.mk GET _ _ NoBody) with (listContainersRequest env all).
  rewrite Hreply. simpl. rewrite (TextFacts.mapM_summarize_named data Hdata).
  simpl. unfold ret, textResult.
  now rewrite TextFacts.containersText_projection.
Qed.

Lemma listContainers_unnamed (all : option bool) (data : list Container.t)
    (st : State_) (w1 : World) :
  respond (world st) (listContainersRequest env all)
  = (Resolved (DContainers data), w1) →
  ¬ Forall named data →
  listContainers_ all st
  = (Thrown TypeError,
     mkState w1 (calls st ++ [(listContainersRequest env all,
                               Resolved (DContainers data))])).
Proof.
  intros Hreply Hdata. unfold listContainers, bind, api_get, send.
  change (Request.mk GET _ _ NoBody) with (listContainersRequest env all).
  rewrite Hreply. simpl.
  now rewrite (TextFacts.mapM_summarize_unnamed data Hdata).
Qed.

Lemma listImages_text (data : list Image.t) (st : State_) (w1 : World) :
  respond (world st) (listImagesRequest env) = (Resolved (DImages data), w1) →
  listImages_ st
  = (Returned
       (ToolResult.mk
          [Content.mk "text"
             ("Found " +:+ pretty (length data) +:+ " images:" +:+
              newline +:+ newline +:+
              String.concat newline
                (map (fun img =>
                        "🖼️  " +:+
                        match Image.RepoTags img with
                        | Some tags => String.concat ", " tags
                        | None => "<none>"
                        end +:+ newline +:+
                        "   ID: " +:+ String.substring 7 12 (Image.Id img) +:+ newline +:+
                        "   Size: " +:+ megabytes (Image.Size img) +:+ " MB" +:+ newline +:+
                        "   Created: " +:+ toLocaleDateString (Image.Created img) +:+
                        newline)
                     data))]),
     mkState w1 (calls st ++ [(listImagesRequest env, Resolved (DImages data))])).
Proof.
  intros Hreply. unfold listImages, bind, api_get, send.
  change (Request.mk GET _ _ NoBody) with (listImagesRequest env).
  rewrite Hreply. simpl. unfold ret, textResult, imagesText, Js.showNat.
  rewrite length_map, TextFacts.join_concat, map_map.
  change nl with newline. same_items.
  apply map_ext. intros img. unfold renderImage, imageRow. simpl.
  rewrite TextFacts.join_concat, JsFacts.substring_spec by lia.
  rewrite JsFacts.app_assoc. now destruct (Image.RepoTags img).
Qed.

Lemma listNetworks_text (data : list Network.t) (st : State_) (w1 : World) :
  respond (world st) (listNetworksRequest env) = (Resolved (DNetworks data), w1) →
  listNetworks_ st
  = (Returned
       (ToolResult.mk
          [Content.mk "text"
             ("Found " +:+ pretty (length data) +:+ " networks:" +:+
              newline +:+ newline +:+
              String.concat newline
                (map (fun n =>
                        "🌐 " +:+ Network.Name n +:+
                          " (" +:+ String.substring 0 12 (Network.Id n) +:+ ")" +:+
                          newline +:+
                        "   Driver: " +:+ Network.Driver n +:+ newline +:+
                        "   Scope: " +:+ Network.Scope n +:+ newline)
                     data))]),
     mkState w1 (calls st ++ [(listNetworksRequest env, Resolved (DNetworks data))])).
Proof.
  intros Hreply. unfold listNetworks, bind, api_get, send.
  change (Request.mk GET _ _ NoBody) with (listNetworksRequest env).
  rewrite Hreply. simpl. unfold ret, textResult, networksText, Js.showNat.
  rewrite length_map, TextFacts.join_concat, map_map.
  change nl with newline. same_items.
  apply map_ext. intros n. unfold renderNetwork, networkRow. simpl.
  now rewrite JsFacts.substring_0.
Qed.

Lemma listVolumes_none (Volumes : option (list Volume.t)) (st : State_) (w1 : World) :
  respond (world st) (listVolumesRequest env) = (Resolved (DVolumes Volumes), w1) →
  Volumes = None ∨ Volumes = Some [] →
  listVolumes_ st
  = (Returned
       (ToolResult.mk
          [Content.mk "text" ("Found 0 volumes:" +:+ newline +:+ newline)]),
     mkState w1 (calls st ++ [(listVolumesRequest env, Resolved (DVolumes Volumes))])).
Proof.
  intros Hreply HV. unfold listVolumes, bind, api_get, send.
  change (Request.mk GET _ _ NoBody) with (listVolumesRequest env).
  rewrite Hreply. now destruct HV as [-> | ->].
Qed.

(** C8, amended.  When the remote API answers [listContainers] with a
    list of containers that each have a name and a port list, as the
    Docker API lists them, every container is projected into the first
    12 characters of its id, its first name without its first slash,
    its image, status and state, and its port entries joined with ", ",
    an entry reading host port, colon, container port when published
    and the bare container port when not; the text is the number of
    containers followed by one item per container, in order, showing
    name, short id, image, status and ports; an empty list gives exactly
    the header "Found 0 containers:" and a blank line, with no item.  A
    list in which some container has no name or no port list is not
    projected: the call fails with a TypeError. *)
Theorem listContainers_projects (all : option bool) (data : list Container.t)
    (st : State_) (w1 : World) :
  respond (world st) (listContainersRequest env all)
  = (Resolved (DContainers data), w1) →
  let st' := mkState w1 (calls st ++ [(listContainersRequest env all,
                                       Resolved (DContainers data))]) in
  (Forall named data →
   mapM summarize data = Some (map projection data)
   ∧ listContainers_ all st
     = (Returned
          (ToolResult.mk
             [Content.mk "text"
                ("Found " +:+ pretty (length data) +:+ " containers:" +:+
                 newline +:+ newline +:+
                 String.concat newline (map containerShown data))]), st'))
  ∧ (data = [] →
     listContainers_ all st
     = (Returned
          (ToolResult.mk
             [Content.mk "text" ("Found 0 containers:" +:+ newline +:+ newline)]),
        st'))
  ∧ (¬ Forall named data → listContainers_ all st = (Thrown TypeError, st')).
Proof.
  intros Hreply st'. split; [| split].
  - intros Hdata.
    split; [now apply TextFacts.mapM_summarize_named |].
    exact (listContainers_text all data st w1 Hreply Hdata).
  - intros E. subst data.
    exact (listContainers_text all [] st w1 Hreply (List.Forall_nil _)).
  - exact (listContainers_unnamed all data st w1 Hreply).
Qed.

(** A listing in which some container lacks its [Ports] field, and an
    inspection that lacks its [Mounts] field, end in a TypeError. *)
Lemma listContainers_absent_ports (all : option bool) (data : list Container.t)
    (c : Container.t) (st : State_) (w1 : World) :
  respond (world st) (listContainersRequest env all)
  = (Resolved (DContainers data), w1) →
  c ∈ data → Container.Ports c = None →
  (listContainers_ all st).1 = Thrown TypeError.
Proof.
  intros H Hin Hports. unfold listContainers, bind, api_get, send.
  change (Request.mk GET _ _ NoBody) with (listContainersRequest env all).
  rewrite H. simpl.
  now rewrite (TextFacts.mapM_summarize_absent_ports data c Hin Hports).
Qed.

Lemma getContainerInfo_absent_mounts (containerId : string)
    (c : Inspect.t) (st : State_) (w1 : World) :
  respond (world st) (inspectRequest env containerId)
  = (Resolved (DInspect c), w1) →
  Inspect.Mounts c = None →
  (getContainerInfo_ (Some containerId) st).1 = Thrown TypeError.
Proof.
  intros H Hm. unfold getContainerInfo, bind, api_get, send.
  change (Request.mk GET _ _ NoBody) with (inspectRequest env containerId).
  rewrite H. simpl. unfold inspectText. now rewrite Hm.
Qed.

(** C9, amended.  The list handlers answer an empty result with the
    header "Found 0 ...:" and no item; [listVolumes] answers a reply
    without its [Volumes] field in the same way; [listImages] shows
    "<none>" for an image without tags; [listContainers] shows "none"
    for a container whose port list is empty, and [getContainerInfo]
    shows "none" for a container whose mount list is empty.  None of
    them fails on such a reply. *)
Theorem list_handlers_tolerate (st : State_) :
  (∀ all w1,
     respond (world st) (listContainersRequest env all)
     = (Resolved (DContainers []), w1) →
     (listContainers_ all st).1
     = Returned (ToolResult.mk
                   [Content.mk "text" ("Found 0 containers:" +:+ newline +:+ newline)]))
  ∧ (∀ w1,
       respond (world st) (listImagesRequest env) = (Resolved (DImages []), w1) →
       (listImages_ st).1
       = Returned (ToolResult.mk
                     [Content.mk "text" ("Found 0 images:" +:+ newline +:+ newline)]))
  ∧ (∀ Volumes w1,
       respond (world st) (listVolumesRequest env)
       = (Resolved (DVolumes Volumes), w1) →
       Volumes = None ∨ Volumes = Some [] →
       (listVolumes_ st).1
       = Returned (ToolResult.mk
                     [Content.mk "text" ("Found 0 volumes:" +:+ newline +:+ newline)]))
  ∧ (∀ w1,
       respond (world st) (listNetworksRequest env) = (Resolved (DNetworks []), w1) →
       (listNetworks_ st).1
       = Returned (ToolResult.mk
                     [Content.mk "text" ("Found 0 networks:" +:+ newline +:+ newline)]))
  ∧ (∀ data w1,
       respond (world st) (listImagesRequest env) = (Resolved (DImages data), w1) →
       Forall (fun img => Image.RepoTags img = None) data →
       (listImages_ st).1
       = Returned
           (ToolResult.mk
              [Content.mk "text"
                 ("Found " +:+ pretty (length data) +:+ " images:" +:+
                  newline +:+ newline +:+
                  String.concat newline
                    (map (fun img =>
                            "🖼️  <none>" +:+ newline +:+
                            "   ID: " +:+ String.substring 7 12 (Image.Id img) +:+ newline +:+
                            "   Size: " +:+ megabytes (Image.Size img) +:+ " MB" +:+ newline +:+
                            "   Created: " +:+ toLocaleDateString (Image.Created img) +:+
                            newline)
                         data))]))
  ∧ (∀ all data w1,
       respond (world st) (listContainersRequest env all)
       = (Resolved (DContainers data), w1) →
       Forall (fun c => Container.Names c ≠ [] ∧ Container.Ports c = Some []) data →
       (listContainers_ all st).1
       = Returned
           (ToolResult.mk
              [Content.mk "text"
                 ("Found " +:+ pretty (length data) +:+ " containers:" +:+
                  newline +:+ newline +:+
                  String.concat newline
                    (map (fun c =>
                            "📦 " +:+ withoutFirstSlash (firstName c) +:+
                              " (" +:+ String.substring 0 12 (Container.Id c) +:+ ")" +:+
                              newline +:+
                            "   Image: " +:+ Container.Image c +:+ newline +:+
                            "   Status: " +:+ Container.Status c +:+ newline +:+
                            "   Ports: none" +:+ newline)
                         data))]))
  ∧ (∀ containerId c w1,
       respond (world st) (inspectRequest env containerId)
       = (Resolved (DInspect c), w1) →
       Inspect.Mounts c = Some [] →
       (getContainerInfo_ (Some containerId) st).1
       = Returned
           (ToolResult.mk
              [Content.mk "text"
                 ("Container: " +:+ withoutFirstSlash (Inspect.Name c) +:+
                    " (" +:+ String.substring 0 12 (Inspect.Id c) +:+ ")" +:+ newline +:+
                  "State: " +:+ Inspect.State_Status c +:+ newline +:+
                  "Started: " +:+ Inspect.State_StartedAt c +:+ newline +:+
                  "Image: " +:+ Inspect.Config_Image c +:+ newline +:+
                  "Restart Policy: " +:+ Inspect.HostConfig_RestartPolicy_Name c +:+
                    newline +:+
                  "Environment:" +:+ newline +:+
                    String.concat newline
                      (map (fun e => "  - " +:+ e) (Inspect.Config_Env c)) +:+ newline +:+
                  "Mounts:" +:+ newline +:+ "  none" +:+ newline +:+
                  "Networks: " +:+
                    String.concat ", "
                      (map fst (Inspect.NetworkSettings_Networks c)))])).
Proof.
  repeat apply conj.
  - intros all w1 H.
    now rewrite (listContainers_text all [] st w1 H (List.Forall_nil _)).
  - intros w1 H. now rewrite (listImages_text [] st w1 H).
  - intros Volumes w1 H HV. now rewrite (listVolumes_none Volumes st w1 H HV).
  - intros w1 H. now rewrite (listNetworks_text [] st w1 H).
  - intros data w1 H Hdata. rewrite (listImages_text data st w1 H). simpl.
    same_items. apply List.map_ext_Forall. eapply Forall_impl; [exact Hdata |].
    intros img Himg. simpl in Himg. now rewrite Himg.
  - intros all data w1 H Hdata.
    rewrite (listContainers_text all data st w1 H).
    + simpl. same_items. apply List.map_ext_Forall.
      eapply Forall_impl; [exact Hdata |].
      intros c [_ Hports]. unfold containerShown, portsOf. now rewrite Hports.
    + eapply Forall_impl; [exact Hdata |].
      intros c [Hnames Hports]. destruct (Container.Names c) as [| name rest] eqn:E;
        [now destruct Hnames |]. now exists name, rest, [].
  - intros containerId c w1 H Hm. unfold getContainerInfo, bind, api_get, send.
    change (Request.mk GET _ _ NoBody) with (inspectRequest env containerId).
    rewrite H. simpl. unfold inspectText. rewrite Hm. simpl.
    unfold ret, textResult.
    now rewrite JsFacts.substring_0, TextFacts.replace_slash,
      !TextFacts.join_concat.
Qed.

(** C10.  In the text [listImages] returns, the id shown for every image
    is the 12 characters of its full id that start at index 7, that is
    the first 12 characters after a 7-character prefix such as
    "sha256:"; in the texts [listNetworks] and [listContainers] return,
    the id shown is the first 12 characters of the full id.  (The items
    of [listContainers] are those of a list whose containers each have
    a name and a port list; on any other list the call fails and shows
    nothing.) *)
Theorem short_ids (st : State_) :
  (∀ data w1,
     respond (world st) (listImagesRequest env) = (Resolved (DImages data), w1) →
     (listImages_ st).1
     = Returned
         (ToolResult.mk
            [Content.mk "text"
               ("Found " +:+ pretty (length data) +:+ " images:" +:+
                newline +:+ newline +:+
                String.concat newline
                  (map (fun img =>
                          "🖼️  " +:+
                          match Image.RepoTags img with
                          | Some tags => String.concat ", " tags
                          | None => "<none>"
                          end +:+ newline +:+
                          "   ID: " +:+ String.substring 7 12 (Image.Id img) +:+ newline +:+
                          "   Size: " +:+ megabytes (Image.Size img) +:+ " MB" +:+ newline +:+
                          "   Created: " +:+ toLocaleDateString (Image.Created img) +:+
                          newline)
                       data))]))
  ∧ (∀ digest : string,
       String.substring 7 12 ("sha256:" +:+ digest) = String.substring 0 12 digest
       ∧ Js.substring 7 19 ("sha256:" +:+ digest) = String.substring 0 12 digest)
  ∧ (∀ data w1,
       respond (world st) (listNetworksRequest env) = (Resolved (DNetworks data), w1) →
       (listNetworks_ st).1
       = Returned
           (ToolResult.mk
              [Content.mk "text"
                 ("Found " +:+ pretty (length data) +:+ " networks:" +:+
                  newline +:+ newline +:+
                  String.concat newline
                    (map (fun n =>
                            "🌐 " +:+ Network.Name n +:+
                              " (" +:+ String.substring 0 12 (Network.Id n) +:+ ")" +:+
                              newline +:+
                            "   Driver: " +:+ Network.Driver n +:+ newline +:+
                            "   Scope: " +:+ Network.Scope n +:+ newline)
                         data))]))
  ∧ (∀ all data w1,
       respond (world st) (listContainersRequest env all)
       = (Resolved (DContainers data), w1) →
       Forall named data →
       (listContainers_ all st).1
       = Returned
           (ToolResult.mk
              [Content.mk "text"
                 ("Found " +:+ pretty (length data) +:+ " containers:" +:+
                  newline +:+ newline +:+
                  String.concat newline
                    (map (fun c =>
                            "📦 " +:+ withoutFirstSlash (firstName c) +:+
                              " (" +:+ String.substring 0 12 (Container.Id c) +:+ ")" +:+
                              newline +:+
                            "   Image: " +:+ Container.Image c +:+ newline +:+
                            "   Status: " +:+ Container.Status c +:+ newline +:+
                            "   Ports: " +:+ portsShown (portsOf c) +:+ newline)
                         data))]))
  ∧ (∀ all data w1,
       respond (world st) (listContainersRequest env all)
       = (Resolved (DContainers data), w1) →
       ¬ Forall named data →
       (listContainers_ all st).1 = Thrown TypeError).
Proof.
  repeat apply conj.
  - intros data w1 H. now rewrite (listImages_text data st w1 H).
  - intros digest. split; [reflexivity |].
    now rewrite JsFacts.substring_spec by lia.
  - intros data w1 H. now rewrite (listNetworks_text data st w1 H).
  - intros all data w1 H Hdata.
    now rewrite (listContainers_text all data st w1 H Hdata).
  - intros all data w1 H Hdata.
    now rewrite (listContainers_unnamed all data st w1 H Hdata).
Qed.

End ServerFacts.

(* ================================================================== *)
(** ** The theorems at the sample inputs                               *)
(* ================================================================== *)

(** An unconfirmed stop: the warning, and an empty log. *)
Lemma unconfirmed_stop_warns :
  Args.confirm stopWeb = None
  ∧ requiresConfirmation "stop" = true
  ∧ sampleCall (ToolCall.mk "portainer_container_action" stopWeb) []
    = (Returned
         (ToolResult.mk
            [Content.mk "text"
               "⚠️ This action (stop) requires confirmation. Please set confirm=true to proceed."]),
       mkState [] []).
Proof.
  split; [reflexivity | split; [reflexivity |]].
  refine (proj2 (proj1
    (unconfirmed_call_only_warns scripted sampleStringify sampleMegabytes
       sampleGigabytes sampleDate sampleEnv stopWeb (mkState [] [])
       (or_introl eq_refl))
    "stop" eq_refl eq_refl) eq_refl).
Defined.

(** Without a token even a read-only tool fails, with no call logged,
    and so does every call of a series. *)
Lemma missing_token_list_images :
  ProcessEnv.PORTAINER_TOKEN noTokenEnv = None
  ∧ callTool scripted sampleStringify sampleNumber sampleNumber sampleNumber
      noTokenEnv (ToolCall.mk "portainer_list_images" Args.empty)
      (mkState [Resolved (DImages [])] [])
    = (Thrown (McpError InternalError "PORTAINER_TOKEN not configured"),
       mkState [Resolved (DImages [])] [])
  ∧ calls (serve scripted sampleStringify sampleNumber sampleNumber sampleNumber
             noTokenEnv
             [listAll; ToolCall.mk "foo_bar" Args.empty;
              ToolCall.mk "portainer_create_container" createWeb]
             (mkState [Resolved (DImages [])] [])).2
    = [].
Proof.
  split; [reflexivity |].
  pose proof (missing_token_fails_every_call scripted sampleStringify sampleNumber
                sampleNumber sampleNumber noTokenEnv
                (ToolCall.mk "portainer_list_images" Args.empty)
                [listAll; ToolCall.mk "foo_bar" Args.empty;
                 ToolCall.mk "portainer_create_container" createWeb]
                (mkState [Resolved (DImages [])] []) eq_refl) as [Hone Hall].
  split; [exact Hone | now rewrite Hall].
Defined.




(** The unknown tool of the specification. *)
Lemma foo_bar_not_found :
("foo_bar" ∉ map Tool.name listTools)
  ∧ sampleCall (ToolCall.mk "foo_bar" Args.empty) [Resolved DEmpty]
    = (Thrown (McpError MethodNotFound "Unknown tool: foo_bar"),
       mkState [Resolved DEmpty] []).
Proof.
  assert (H : "foo_bar" ∉ map Tool.name listTools).
  { intros Hin. simpl in Hin. repeat (apply elem_of_cons in Hin as [Hin | Hin];
      [discriminate Hin |]). now apply elem_of_nil in Hin. }
  split; [exact H |].
  exact (proj1 (proj2
    (unknown_tool_not_found scripted sampleStringify sampleNumber sampleNumber
       sampleNumber sampleEnv "foo_bar" Args.empty
       (mkState [Resolved DEmpty] []) H)) eq_refl).
Defined.

(** C8 fails as stated.  Of a name that has a slash, but not in front,
    the slash is removed all the same: web/db is listed as webdb; and a
    listing whose container lacks [Ports] is not projected at all: the
    call fails with a TypeError. *)
Lemma inner_slash_removed_and_absent_ports_fail :
  Container.Names slashNamedContainer = ["web/db"]
  ∧ sampleCall listAll [Resolved (DContainers [slashNamedContainer])]
    = (Returned
         (ToolResult.mk
            [Content.mk "text"
               ("Found 1 containers:" +:+ newline +:+ newline +:+
                "📦 webdb (89abcdef0123)" +:+ newline +:+
                "   Image: postgres:16" +:+ newline +:+
                "   Status: Up 2 hours" +:+ newline +:+
                "   Ports: none" +:+ newline)]),
       mkState []
         [(listContainersRequest sampleEnv None,
           Resolved (DContainers [slashNamedContainer]))])
  ∧ Container.Ports portlessContainer = None
  ∧ sampleCall listAll [Resolved (DContainers [webContainer; portlessContainer])]
    = (Thrown TypeError,
       mkState []
         [(listContainersRequest sampleEnv None,
           Resolved (DContainers [webContainer; portlessContainer]))]).
Proof. repeat split. Qed.

(** A container listed, the empty listing, and a listing that fails. *)
Lemma list_web_container :
  Forall named [webContainer]
  ∧ mapM summarize [webContainer]
    = Some [Summary.mk "0123456789ab" "web" "nginx:latest" "Up 2 hours" "running"
              "8080:80, 443"]
  ∧ listContainers scripted sampleEnv None
      (mkState [Resolved (DContainers [webContainer])] [])
    = (Returned
         (ToolResult.mk
            [Content.mk "text"
               ("Found 1 containers:" +:+ newline +:+ newline +:+
                "📦 web (0123456789ab)" +:+ newline +:+
                "   Image: nginx:latest" +:+ newline +:+
                "   Status: Up 2 hours" +:+ newline +:+
                "   Ports: 8080:80, 443" +:+ newline)]),
       mkState []
         [(listContainersRequest sampleEnv None,
           Resolved (DContainers [webContainer]))])
  ∧ listContainers scripted sampleEnv None
      (mkState [Resolved (DContainers [])] [])
    = (Returned
         (ToolResult.mk
            [Content.mk "text" ("Found 0 containers:" +:+ newline +:+ newline)]),
       mkState [] [(listContainersRequest sampleEnv None, Resolved (DContainers []))])
  ∧ (¬ Forall named [webContainer; portlessContainer])
  ∧ listContainers scripted sampleEnv None
      (mkState [Resolved (DContainers [webContainer; portlessContainer])] [])
    = (Thrown TypeError,
       mkState []
         [(listContainersRequest sampleEnv None,
           Resolved (DContainers [webContainer; portlessContainer]))]).
Proof.
  assert (Hnamed : Forall named [webContainer]).
  { repeat constructor.
    now exists "/web", [], [Port.mk 80 (Some 8080%Z); Port.mk 443 None]. }
  assert (Hunnamed : ¬ Forall named [webContainer; portlessContainer]).
  { intros H. apply Forall_cons in H as [_ H]. apply Forall_cons in H as [H _].
    destruct H as (name & rest & ports & _ & Hports). discriminate Hports. }
  split; [exact Hnamed |].
  destruct (listContainers_projects scripted sampleEnv None [webContainer]
              (mkState [Resolved (DContainers [webContainer])] []) []
              eq_refl) as (Hlisted & _ & _).
  destruct (Hlisted Hnamed) as (Hprojected & Hrun).
  split; [exact Hprojected |].
  split; [exact Hrun |].
  destruct (listContainers_projects scripted sampleEnv None []
              (mkState [Resolved (DContainers [])] []) []
              eq_refl) as (_ & Hempty & _).
  split; [exact (Hempty eq_refl) |].
  split; [exact Hunnamed |].
  destruct (listContainers_projects scripted sampleEnv None
              [webContainer; portlessContainer]
              (mkState [Resolved (DContainers [webContainer; portlessContainer])] [])
              [] eq_refl) as (_ & _ & Hfails).
  exact (Hfails Hunnamed).
Defined.

(** C9 fails as stated: a listing whose container lacks [Ports], and an
    inspection that lacks [Mounts], make the call fail with a TypeError
    instead of rendering a placeholder. *)
Lemma absent_ports_and_mounts_fail :
  Container.Ports portlessContainer = None
  ∧ (sampleCall listAll [Resolved (DContainers [portlessContainer])]).1
    = Thrown TypeError
  ∧ Inspect.Mounts mountlessInspect = None
  ∧ (sampleCall (ToolCall.mk "portainer_container_info" stopWeb)
       [Resolved (DInspect mountlessInspect)]).1
    = Thrown TypeError.
Proof. repeat split. Qed.

(** What the handlers do tolerate, on scripted replies: no volume
    field, no network, no image, an image without tags, a container
    without ports and an inspected container without mounts. *)
Lemma tolerated_replies :
  (listVolumes scripted sampleEnv (mkState [Resolved (DVolumes None)] [])).1
  = Returned (ToolResult.mk
                [Content.mk "text" ("Found 0 volumes:" +:+ newline +:+ newline)])
  ∧ (listNetworks scripted sampleEnv (mkState [Resolved (DNetworks [])] [])).1
    = Returned (ToolResult.mk
                  [Content.mk "text" ("Found 0 networks:" +:+ newline +:+ newline)])
  ∧ (listImages scripted sampleMegabytes sampleDate sampleEnv
       (mkState [Resolved (DImages [])] [])).1
    = Returned (ToolResult.mk
                  [Content.mk "text" ("Found 0 images:" +:+ newline +:+ newline)])
  ∧ (listImages scripted sampleMegabytes sampleDate sampleEnv
       (mkState [Resolved (DImages [sampleImage])] [])).1
    = Returned (ToolResult.mk
                  [Content.mk "text"
                     ("Found 1 images:" +:+ newline +:+ newline +:+
                      "🖼️  <none>" +:+ newline +:+
                      "   ID: 0123456789ab" +:+ newline +:+
                      "   Size: 1.00 MB" +:+ newline +:+
                      "   Created: 11/14/2023" +:+ newline)])
  ∧ (listContainers scripted sampleEnv None
       (mkState [Resolved (DContainers [slashNamedContainer])] [])).1
    = Returned (ToolResult.mk
                  [Content.mk "text"
                     ("Found 1 containers:" +:+ newline +:+ newline +:+
                      "📦 webdb (89abcdef0123)" +:+ newline +:+
                      "   Image: postgres:16" +:+ newline +:+
                      "   Status: Up 2 hours" +:+ newline +:+
                      "   Ports: none" +:+ newline)])
  ∧ (getContainerInfo scripted sampleEnv (Some "web")
       (mkState [Resolved (DInspect bareInspect)] [])).1
    = Returned (ToolResult.mk
                  [Content.mk "text"
                     ("Container: web (0123456789ab)" +:+ newline +:+
                      "State: running" +:+ newline +:+
                      "Started: 2024-01-01T00:00:00Z" +:+ newline +:+
                      "Image: nginx:latest" +:+ newline +:+
                      "Restart Policy: no" +:+ newline +:+
                      "Environment:" +:+ newline +:+
                      "  - PATH=/usr/bin" +:+ newline +:+
                      "Mounts:" +:+ newline +:+
                      "  none" +:+ newline +:+
                      "Networks: bridge")]).
Proof.
  pose proof (list_handlers_tolerate scripted sampleMegabytes sampleDate sampleEnv)
    as H.
  repeat apply conj.
  - destruct (H (mkState [Resolved (DVolumes None)] []))
      as (_ & _ & Hvolumes & _).
    exact (Hvolumes None [] eq_refl (or_introl eq_refl)).
  - destruct (H (mkState [Resolved (DNetworks [])] []))
      as (_ & _ & _ & Hnetworks & _).
    exact (Hnetworks [] eq_refl).
  - destruct (H (mkState [Resolved (DImages [])] []))
      as (_ & Himages & _).
    exact (Himages [] eq_refl).
  - destruct (H (mkState [Resolved (DImages [sampleImage])] []))
      as (_ & _ & _ & _ & Htags & _).
    exact (Htags [sampleImage] [] eq_refl ltac:(repeat constructor)).
  - destruct (H (mkState [Resolved (DContainers [slashNamedContainer])] []))
      as (_ & _ & _ & _ & _ & Hports & _).
    exact (Hports None [slashNamedContainer] [] eq_refl
             ltac:(repeat constructor; discriminate)).
  - destruct (H (mkState [Resolved (DInspect bareInspect)] []))
      as (_ & _ & _ & _ & _ & _ & Hmounts).
    exact (Hmounts "web" bareInspect [] eq_refl eq_refl).
Defined.

(** The three short ids on samples. *)
Lemma short_ids_samples :
  (listImages scripted sampleMegabytes sampleDate sampleEnv
     (mkState [Resolved (DImages [sampleImage])] [])).1
  = Returned (ToolResult.mk
                [Content.mk "text"
                   ("Found 1 images:" +:+ newline +:+ newline +:+
                    "🖼️  <none>" +:+ newline +:+
                    "   ID: 0123456789ab" +:+ newline +:+
                    "   Size: 1.00 MB" +:+ newline +:+
                    "   Created: 11/14/2023" +:+ newline)])
  ∧ (listNetworks scripted sampleEnv
       (mkState [Resolved (DNetworks [sampleNetwork])] [])).1
    = Returned (ToolResult.mk
                  [Content.mk "text"
                     ("Found 1 networks:" +:+ newline +:+ newline +:+
                      "🌐 bridge (fedcba987654)" +:+ newline +:+
                      "   Driver: bridge" +:+ newline +:+
                      "   Scope: local" +:+ newline)])
  ∧ (listContainers scripted sampleEnv None
       (mkState [Resolved (DContainers [webContainer])] [])).1
    = Returned (ToolResult.mk
                  [Content.mk "text"
                     ("Found 1 containers:" +:+ newline +:+ newline +:+
                      "📦 web (0123456789ab)" +:+ newline +:+
                      "   Image: nginx:latest" +:+ newline +:+
                      "   Status: Up 2 hours" +:+ newline +:+
                      "   Ports: 8080:80, 443" +:+ newline)]).
Proof.
  pose proof (short_ids scripted sampleMegabytes sampleDate sampleEnv) as H.
  repeat apply conj.
  - destruct (H (mkState [Resolved (DImages [sampleImage])] []))
      as (Himages & _).
    exact (Himages [sampleImage] [] eq_refl).
  - destruct (H (mkState [Resolved (DNetworks [sampleNetwork])] []))
      as (_ & _ & Hnetworks & _).
    exact (Hnetworks [sampleNetwork] [] eq_refl).
  - destruct (H (mkState [Resolved (DContainers [webContainer])] []))
      as (_ & _ & _ & Hcontainers & _).
    refine (Hcontainers None [webContainer] [] eq_refl _).
    repeat constructor.
    now exists "/web", [], [Port.mk 80 (Some 8080%Z); Port.mk 443 None].
Defined.

(* ================================================================== *)
(** ** Which calls an invocation can issue                             *)
(* ================================================================== *)

Section Issues.

Context {World : Type}.
Variable respond : World -> Request.t -> Reply * World.
Variable P : Request.t -> Prop.

Lemma issues_ret {A} (n : nat) (a : A) : issues P n (@ret World A a).
Proof.
  intros st outcome st' [= <- <-]. exists [].
  rewrite app_nil_r. repeat split; [constructor | simpl; lia].
Qed.

Lemma issues_throw {A} (n : nat) (e : Exn) : issues P n (@throw World A e).
Proof.
  intros st outcome st' [= <- <-]. exists [].
  rewrite app_nil_r. repeat split; [constructor | simpl; lia].
Qed.

Lemma issues_send (n : nat) (r : Request.t) :
  P r → issues P (S n) (send respond r).
Proof.
  intros HP st outcome st' H. unfold send in H.
  destruct (respond (world st) r) as [reply w]. exists [(r, reply)].
  destruct reply; injection H as <- <-;
    (repeat split; [repeat constructor; exact HP | simpl; lia]).
Qed.

(** A call followed by what is done with its reply. *)
Lemma issues_bind_send {B} (n : nat) (r : Request.t)
    (k : RemoteData -> @M World B) :
  P r → (∀ data, issues P n (k data)) →
  issues P (S n) (bind (send respond r) k).
Proof.
  intros HP Hk st outcome st' H. unfold bind, send in H.
  destruct (respond (world st) r) as [[data | e] w].
  - destruct (Hk data _ _ _ H) as (issued & Hcalls & Hall & Hlen).
    exists ((r, Resolved data) :: issued). simpl in Hcalls.
    split; [now rewrite Hcalls, <- app_assoc |].
    split; [now constructor | simpl; lia].
  - injection H as <- <-. exists [(r, Rejected e)].
    repeat split; [repeat constructor; exact HP | simpl; lia].
Qed.

(** A pure step followed by the rest. *)
Lemma issues_bind_pure {A B} (n : nat) (o : option A) (k : A -> @M World B) :
  (∀ a, o = Some a → issues P n (k a)) → issues P n (bind (orTypeError o) k).
Proof.
  intros Hk st outcome st' H. unfold bind, orTypeError in H.
  destruct o as [a |]; [exact (Hk a eq_refl _ _ _ H) |].
  apply (issues_throw n TypeError st outcome st' H).
Qed.

End Issues.

Section Ends.

Context {World : Type}.
Variable respond : World -> Request.t -> Reply * World.

Lemma ends_ret {A} (Q : Outcome A -> Prop) (a : A) :
  Q (Returned a) → ends Q (@ret World A a).
Proof. intros HQ st outcome st' [= <- <-]. exact HQ. Qed.

Lemma ends_throw {A} (Q : Outcome A -> Prop) (e : Exn) :
  Q (Thrown e) → ends Q (@throw World A e).
Proof. intros HQ st outcome st' [= <- <-]. exact HQ. Qed.

Lemma ends_bind_send {B} (Q : Outcome B -> Prop) (r : Request.t)
    (k : RemoteData -> @M World B) :
  (∀ e, Q (Thrown (AxiosErr e))) → (∀ data, ends Q (k data)) →
  ends Q (bind (send respond r) k).
Proof.
  intros Herr Hk st outcome st' H. unfold bind, send in H.
  destruct (respond (world st) r) as [[data | e] w].
  - exact (Hk data _ _ _ H).
  - injection H as <- <-. apply Herr.
Qed.

Lemma ends_bind_pure {A B} (Q : Outcome B -> Prop) (o : option A)
    (k : A -> @M World B) :
  Q (Thrown TypeError) → (∀ a, ends Q (k a)) →
  ends Q (bind (orTypeError o) k).
Proof.
  intros Herr Hk st outcome st' H. unfold bind, orTypeError in H.
  destruct o as [a |]; [exact (Hk a _ _ _ H) |].
  injection H as <- <-. exact Herr.
Qed.

End Ends.

(** Decompose a handler along its calls, pure steps and matches. *)
Ltac ends_step :=
  first
    [ apply ends_ret
    | apply ends_throw
    | apply ends_bind_send; [intros ? | intros ?]
    | apply ends_bind_pure; [| intros ?]
    | match goal with
      | |- ends _ (if ?b then _ else _) => destruct b
      | |- ends _ (match ?x with _ => _ end) => destruct x
      end ].

(** Decompose a handler along its calls, pure steps and matches. *)
Ltac issues_step :=
  first
    [ apply issues_ret
    | apply issues_throw
    | apply issues_bind_send; [| intros ?]
    | apply issues_bind_pure; intros ? ?
    | apply issues_send
    | match goal with
      | |- issues _ _ (if ?b then _ else _) => destruct b eqn:?
      | |- issues _ _ (match ?x with _ => _ end) => destruct x
      end ].

Section Gate.

Context {World : Type}.
Variable respond : World -> Request.t -> Reply * World.
Variable stringify : Json -> string.
Variable megabytes : Z -> string.
Variable gigabytes : Z -> string.
Variable toLocaleDateString : Z -> string.
Variable env : ProcessEnv.t.

Local Abbreviation dispatch_ :=
  (dispatch respond megabytes gigabytes toLocaleDateString env).
Local Abbreviation callTool_ :=
  (callTool respond stringify megabytes gigabytes toLocaleDateString env).
Local Abbreviation State_ := (@State World).

Lemma falsy_confirmed (args : Args.t) :
  falsy (Args.confirm args) = false → confirmed args.
Proof.
  unfold falsy, confirmed. destruct (Args.confirm args) as [j |]; [| discriminate].
  intros H. exists j. split; [reflexivity |].
  intros [-> | [-> | [-> | ->]]]; discriminate H.
Qed.

Lemma confirmed_falsy (args : Args.t) :
  confirmed args → falsy (Args.confirm args) = false.
Proof.
  intros (j & -> & Hj). unfold falsy, isFalsyJson in *.
  destruct j as [| [|] | n | s | |]; simpl; try reflexivity.
  - destruct Hj. tauto.
  - destruct Hj. tauto.
  - destruct (Z.eqb_spec n 0) as [-> |]; [destruct Hj; tauto | reflexivity].
  - destruct s; [destruct Hj; tauto | reflexivity].
Qed.

(** What the [switch] may send: a POST only through an open gate, two
    calls at most. *)
Lemma dispatch_issues (name : string) (args : Args.t) :
  issues (fun r => Request.method r = POST → gateOpen name args)
         2 (dispatch_ name args).
Proof.
  unfold dispatch.
  repeat match goal with
         | |- issues _ _ (if String.eqb name ?lit then _ else _) =>
             destruct (String.eqb_spec name lit) as [-> | _]
         end;
    unfold listContainers, getContainerInfo, getContainerLogs, containerAction,
      createContainer, listImages, listVolumes, listNetworks, getSystemInfo,
      deployStack, api_get, api_post.
  all: repeat issues_step.
  all: try discriminate.
  all: intros _.
  all: try (right; split; [tauto | now apply falsy_confirmed]).
  left. split; [reflexivity |]. eexists. split; [eassumption |].
  match goal with H : _ && _ = false |- _ => apply andb_false_iff in H as [H | H] end;
    [now left | right; now apply falsy_confirmed].
Qed.

(** How the [switch] can end. *)
Lemma dispatch_ends (name : string) (args : Args.t) :
  ends (switchOutcome name) (dispatch_ name args).
Proof.
  unfold dispatch.
  repeat match goal with
         | |- ends _ (if String.eqb name ?lit then _ else _) =>
             destruct (String.eqb_spec name lit) as [-> | ?]
         end;
    unfold listContainers, getContainerInfo, getContainerLogs, containerAction,
      createContainer, listImages, listVolumes, listNetworks, getSystemInfo,
      deployStack, api_get, api_post.
  all: repeat ends_step; simpl; eauto.
  repeat split. simpl. rewrite !not_elem_of_cons. repeat split; try assumption.
  apply not_elem_of_nil.
Qed.

(** The [catch] clause issues no call of its own. *)
Lemma callTool_issues (request : ToolCall.t) :
  issues (fun r => Request.method r = POST →
                   gateOpen (ToolCall.name request) (ToolCall.arguments request))
         2 (callTool_ request).
Proof.
  unfold callTool. destruct (tokenMissing env); [apply issues_throw |].
  intros st outcome st' H. unfold try_catch in H.
  destruct (dispatch_ (ToolCall.name request) (ToolCall.arguments request) st)
    as [[result | e] st1] eqn:Ed;
    destruct (dispatch_issues _ _ _ _ _ Ed) as (issued & Hcalls & Hall & Hlen).
  - injection H as <- <-. now exists issued.
  - assert (st' = st1) as ->; [| now exists issued].
    unfold rewrap, throw in H.
    destruct e as [| [[[] |] ] |]; now injection H.
Qed.

(** Every tool but the creation sends one request at most. *)
Lemma dispatch_issues_one (name : string) (args : Args.t) :
  name ≠ "portainer_create_container" →
  issues (fun _ => True) 1 (dispatch_ name args).
Proof.
  intros Hname. unfold dispatch.
  repeat match goal with
         | |- issues _ _ (if String.eqb name ?lit then _ else _) =>
             destruct (String.eqb_spec name lit) as [-> | _]
         end;
    try (now destruct Hname);
    unfold listContainers, getContainerInfo, getContainerLogs, containerAction,
      listImages, listVolumes, listNetworks, getSystemInfo, deployStack,
      api_get, api_post.
  all: repeat issues_step; exact I.
Qed.

(** X1.  Whatever the tool, the arguments and the replies of the remote
    API, an invocation sends a POST only through an open gate: for a
    container action that is not destructive or comes with a [confirm]
    that JavaScript takes for true, or for a creation or a deployment
    with such a [confirm]; the tool is then one whose schema declares
    the [confirm] parameter.  Every other invocation sends GET requests
    only.  The gate tests the truthiness of [confirm], not that it is
    [true]: any value but null, false, 0 and the empty string opens
    it. *)
Theorem post_only_through_open_gate (request : ToolCall.t) (st : State_) :
  (∃ issued,
     calls (callTool_ request st).2 = calls st ++ issued
     ∧ ∀ r reply, (r, reply) ∈ issued →
         match Request.method r with
         | GET => True
         | POST =>
             gateOpen (ToolCall.name request) (ToolCall.arguments request)
             ∧ ∃ d, descriptorsNamed (ToolCall.name request) = [d]
                    ∧ is_Some (propertyOf (Tool.inputSchema d) "confirm")
         end)
  ∧ (∀ j, Args.confirm (ToolCall.arguments request) = Some j →
       (confirmed (ToolCall.arguments request) ↔
        j ≠ JNull ∧ j ≠ JBool false ∧ j ≠ JNum 0 ∧ j ≠ JStr ""))
  ∧ (Args.confirm (ToolCall.arguments request) = None →
     ¬ confirmed (ToolCall.arguments request)).
Proof.
  split; [| split].
  - destruct (callTool_ request st) as [outcome st'] eqn:Hrun.
    destruct (callTool_issues request _ _ _ Hrun) as (issued & Hcalls & Hall & _).
    exists issued. split; [exact Hcalls |].
    intros r reply Hin. rewrite Forall_forall in Hall.
    pose proof (Hall _ Hin) as Hgate. simpl in Hgate.
    destruct (Request.method r); [exact I |].
    specialize (Hgate eq_refl). split; [exact Hgate |].
    destruct Hgate as [[-> _] | [[-> | ->] _]];
      (eexists; split; [vm_compute; reflexivity | vm_compute; eauto]).
  - intros j Hj. unfold confirmed, isFalsyJson. rewrite Hj. split.
    + intros (j' & [= <-] & H). tauto.
    + intros H. exists j. split; [reflexivity | tauto].
  - intros Hnone (j & Hj & _). congruence.
Qed.

(** X2.  An invocation sends at most two requests, and at most one
    unless the tool is portainer_create_container. *)
Theorem call_budget (request : ToolCall.t) (st : State_) :
  ∃ issued,
    calls (callTool_ request st).2 = calls st ++ issued
    ∧ length issued ≤ 2
    ∧ (ToolCall.name request ≠ "portainer_create_container" → length issued ≤ 1).
Proof.
  destruct (callTool_ request st) as [outcome st'] eqn:Hrun.
  destruct (callTool_issues request _ _ _ Hrun) as (issued & Hcalls & _ & Hlen).
  exists issued. split; [exact Hcalls | split; [exact Hlen |]].
  intros Hname. unfold callTool in Hrun.
  destruct (tokenMissing env).
  { injection Hrun as <- <-. simpl in Hcalls.
    apply (f_equal length) in Hcalls. rewrite length_app in Hcalls. lia. }
  unfold try_catch in Hrun.
  destruct (dispatch_ (ToolCall.name request) (ToolCall.arguments request) st)
    as [[result | e] st1] eqn:Ed;
    destruct (dispatch_issues_one _ (ToolCall.arguments request) Hname _ _ _ Ed)
      as (issued1 & Hcalls1 & _ & Hlen1).
  - injection Hrun as <- <-. simpl in Hcalls. rewrite Hcalls1 in Hcalls.
    now apply app_inv_head in Hcalls as <-.
  - assert (st' = st1) as ->.
    { unfold rewrap, throw in Hrun.
      destruct e as [| [[[] |] ] |]; now injection Hrun. }
    simpl in Hcalls. rewrite Hcalls1 in Hcalls.
    now apply app_inv_head in Hcalls as <-.
Qed.

(** X4.  An invocation ends in one of five ways: a result of exactly one
    text item; the InternalError of a missing token, with nothing sent,
    or of a remote failure, whose message is built from the status and
    the body of the rejection that the last call logged met with; the
    MethodNotFound error, only for a name outside the registry and only
    with a token configured; the axios error of the last call logged,
    when it carries no response (every one that carries a response has
    been rewrapped); or a TypeError. *)
Theorem invocation_outcomes (request : ToolCall.t) (st : State_) :
  match (callTool_ request st).1 with
  | Returned result => ∃ text, result = ToolResult.mk [Content.mk "text" text]
  | Thrown (McpError InternalError message) =>
      (message = "PORTAINER_TOKEN not configured"
       ∧ tokenMissing env = true
       ∧ (callTool_ request st).2 = st)
      ∨ (∃ earlier r status body text,
           calls (callTool_ request st).2
           = calls st ++ earlier ++
             [(r, Rejected (AxiosError.mk (Some (status, body)) text))]
           ∧ message = "Portainer API error: " +:+ pretty status +:+ " - " +:+
                       stringify body)
  | Thrown (McpError MethodNotFound message) =>
      message = "Unknown tool: " +:+ ToolCall.name request
      ∧ (ToolCall.name request ∉ map Tool.name listTools)
      ∧ tokenMissing env = false
  | Thrown (AxiosErr e) =>
      AxiosError.response e = None
      ∧ ∃ earlier r,
          calls (callTool_ request st).2 = calls st ++ earlier ++ [(r, Rejected e)]
  | Thrown TypeError => True
  end.
Proof.
  unfold callTool. destruct (tokenMissing env) eqn:Htok; simpl.
  { left. now repeat split. }
  unfold try_catch.
  destruct (dispatch_ (ToolCall.name request) (ToolCall.arguments request) st)
    as [[result | e] st1] eqn:Ed;
    pose proof (dispatch_ends _ _ _ _ _ Ed) as Hend;
    pose proof (dispatch_stops respond megabytes gigabytes toLocaleDateString env
                  _ _ _ _ _ Ed) as (issued & Hcalls & Hissued);
    simpl in *.
  - exact Hend.
  - destruct e as [code message | [[[status body] |] message] |]; simpl.
    + destruct Hend as (-> & -> & Hname). now repeat split.
    + right. destruct Hissued as (earlier & r & -> & _).
      now exists earlier, r, status, body, message.
    + split; [reflexivity |]. destruct Hissued as (earlier & r & -> & _).
      now exists earlier, r.
    + exact I.
Qed.

(** X5.  When the remote API cannot be reached (the rejection carries no
    response), the invocation fails with that very axios error, not
    rewrapped; the failed call is the last one issued and every call
    before it had succeeded. *)
Theorem unreachable_remote_rethrown (request : ToolCall.t) (st : State_) :
  ∃ issued,
    calls (callTool_ request st).2 = calls st ++ issued
    ∧ ∀ r e, (r, Rejected e) ∈ issued → AxiosError.response e = None →
        (callTool_ request st).1 = Thrown (AxiosErr e)
        ∧ ∃ earlier, issued = earlier ++ [(r, Rejected e)]
                     ∧ Forall resolved earlier.
Proof.
  assert (Hall : ∀ l : list (Request.t * Reply), Forall resolved l →
                 ∀ r e, (r, Rejected e) ∈ l → False).
  { intros l Hres r e Hin. rewrite Forall_forall in Hres.
    destruct (Hres _ Hin) as [data Hdata]. discriminate Hdata. }
  unfold callTool. destruct (tokenMissing env); simpl.
  { exists []. split; [now rewrite app_nil_r |].
    intros r e Hin. now apply elem_of_nil in Hin. }
  unfold try_catch.
  destruct (dispatch_ (ToolCall.name request) (ToolCall.arguments request) st)
    as [thrown st1] eqn:Ed.
  destruct (dispatch_stops respond megabytes gigabytes toLocaleDateString env
              _ _ _ _ _ Ed) as (issued & Hcalls & Hissued).
  destruct thrown as [result | [code msg | e0 |]]; simpl;
    try (exists issued; split; [exact Hcalls |];
         intros r e Hin; destruct (Hall _ Hissued _ _ Hin)).
  destruct Hissued as (earlier & r0 & -> & Hearlier).
  exists (earlier ++ [(r0, Rejected e0)]). split.
  { rewrite <- Hcalls. now destruct e0 as [[[] |] ]. }
  intros r e Hin Hnone. apply elem_of_app in Hin as [Hin | Hin].
  { destruct (Hall _ Hearlier _ _ Hin). }
  apply list_elem_of_singleton in Hin. injection Hin as -> ->.
  split; [| now exists earlier].
  destruct e0 as [response message]. simpl in Hnone. now subst response.
Qed.

(** X6.  A container action that is not destructive, or that comes with
    a [confirm] that JavaScript takes for true, is passed on whatever
    its name (it is not checked against the enumeration of the schema):
    when the remote API accepts it, exactly one POST is sent, to
    ".../containers/<id>/<action>" with the action spelled as the caller
    gave it, the reply is not read, and the message names the action
    and the container. *)
Theorem container_action_proceeds (args : Args.t) (action : string)
    (data : RemoteData) (st : State_) (w1 : World) :
  Args.action args = Some action →
  requiresConfirmation action = false ∨ confirmed args →
  respond (world st) (actionRequest env (Args.container_id args) action)
  = (Resolved data, w1) →
  let success :=
    ToolResult.mk
      [Content.mk "text"
         ("✅ Successfully performed '" +:+ action +:+ "' on container " +:+
          match Args.container_id args with Some id => id | None => "undefined" end)] in
  let st' :=
    mkState w1 (calls st ++ [(actionRequest env (Args.container_id args) action,
                              Resolved data)]) in
  dispatch_ "portainer_container_action" args st = (Returned success, st')
  ∧ (tokenMissing env = false →
     callTool_ (ToolCall.mk "portainer_container_action" args) st
     = (Returned success, st')).
Proof.
  intros Haction Hgate Hreply success st'.
  assert (Hd : dispatch_ "portainer_container_action" args st
               = (Returned success, st')).
  { unfold dispatch. simpl. unfold bind at 1. unfold orTypeError.
    rewrite Haction. simpl.
    assert (requiresConfirmation action && falsy (Args.confirm args) = false) as ->.
    { destruct Hgate as [-> | H]; [reflexivity |].
      rewrite (confirmed_falsy args H). apply andb_false_r. }
    unfold containerAction, bind, api_post, send.
    change (Request.mk POST _ [] NoBody)
      with (actionRequest env (Args.container_id args) action).
    now rewrite Hreply. }
  split; [exact Hd |]. intros Htok.
  unfold callTool, try_catch. rewrite Htok. simpl. now rewrite Hd.
Qed.

(** X7.  A portainer_container_action call without [action] fails with
    a TypeError before anything is sent, also when [confirm] is true. *)
Theorem container_action_without_action (args : Args.t) (st : State_) :
  Args.action args = None →
  dispatch_ "portainer_container_action" args st = (Thrown TypeError, st)
  ∧ (tokenMissing env = false →
     callTool_ (ToolCall.mk "portainer_container_action" args) st
     = (Thrown TypeError, st)).
Proof.
  intros Haction.
  assert (Hd : dispatch_ "portainer_container_action" args st
               = (Thrown TypeError, st)).
  { unfold dispatch. simpl. unfold bind, orTypeError. now rewrite Haction. }
  split; [exact Hd |]. intros Htok.
  unfold callTool, try_catch. rewrite Htok. simpl. now rewrite Hd.
Qed.

(** X8.  A confirmed portainer_deploy_stack call sends one POST to the
    stack URL, carrying the name, the compose text and the environment
    list (an empty list when [env] is missing or falsy), however the
    remote API answers; when it answers with a stack, the message names
    the stack and shows its id, or "undefined" when the answer carries
    no id; when it rejects the call, the rejection is thrown. *)
Theorem deploy_stack_confirmed (args : Args.t) (st : State_) :
  confirmed args →
  (∀ reply w1,
     respond (world st) (stackRequest env args) = (reply, w1) →
     let st' := mkState w1 (calls st ++ [(stackRequest env args, reply)]) in
     (dispatch_ "portainer_deploy_stack" args st).2 = st'
     ∧ (tokenMissing env = false →
        (callTool_ (ToolCall.mk "portainer_deploy_stack" args) st).2 = st')
     ∧ (∀ Id, reply = Resolved (DStack Id) →
        let success :=
          ToolResult.mk
            [Content.mk "text"
               ("✅ Stack '" +:+
                match Args.name args with Some name => name | None => "undefined" end
                +:+ "' deployed successfully!" +:+ newline +:+
                "Stack ID: " +:+
                match Id with Some n => pretty n | None => "undefined" end)] in
        dispatch_ "portainer_deploy_stack" args st = (Returned success, st')
        ∧ (tokenMissing env = false →
           callTool_ (ToolCall.mk "portainer_deploy_stack" args) st
           = (Returned success, st')))
     ∧ (∀ e, reply = Rejected e →
        dispatch_ "portainer_deploy_stack" args st = (Thrown (AxiosErr e), st')))
  ∧ Request.method (stackRequest env args) = POST
  ∧ Request.url (stackRequest env args)
    = "/api/stacks?endpointId=" +:+
      match ProcessEnv.PORTAINER_ENDPOINT_ID env with
      | None | Some "" => "1"
      | Some id => id
      end +:+ "&method=string&type=2"
  ∧ (∃ Env,
       Request.data (stackRequest env args)
       = StackBody (StackData.mk (Args.name args) (Args.compose_content args) Env)
       ∧ match Args.env args with
         | None | Some JNull | Some (JBool false) | Some (JNum 0) | Some (JStr "") =>
             Env = JArr []
         | Some j => Env = j
         end).
Proof.
  intros Hconfirm. apply confirmed_falsy in Hconfirm.
  split; [| split; [reflexivity | split]].
  - intros reply w1 Hreply st'.
    assert (Hrun : dispatch_ "portainer_deploy_stack" args st
                   = (match reply with
                      | Resolved data =>
                          Returned
                            (textResult
                               ("✅ Stack '" +:+ Js.showOpt (Args.name args) +:+
                                "' deployed successfully!" +:+ nl +:+
                                "Stack ID: " +:+ showId (dataId data)))
                      | Rejected e => Thrown (AxiosErr e)
                      end, st')).
    { unfold dispatch. simpl. rewrite Hconfirm.
      unfold deployStack, bind, api_post, send.
      change (Request.mk POST _ [] (StackBody _)) with (stackRequest env args).
      rewrite Hreply. now destruct reply. }
    split; [now rewrite Hrun |].
    split; [intros Htok;
            now rewrite (callTool_state respond stringify megabytes gigabytes
                           toLocaleDateString env), Hrun |].
    split.
    + intros Id -> success.
      assert (Hd : dispatch_ "portainer_deploy_stack" args st
                   = (Returned success, st')).
      { rewrite Hrun. now destruct Id. }
      split; [exact Hd |]. intros Htok.
      unfold callTool, try_catch. rewrite Htok. simpl. now rewrite Hd.
    + intros e ->. exact Hrun.
  - unfold stackRequest, PORTAINER_ENDPOINT_ID. simpl.
    now destruct (ProcessEnv.PORTAINER_ENDPOINT_ID env) as [[|] |].
  - eexists. split; [reflexivity |].
    destruct (Args.env args) as [[| [|] | [| |] | [|] | |] |]; reflexivity.
Qed.

(** X9.  In a confirmed portainer_create_container call the start call
    depends on the create call: when the create call is rejected, the
    start call is never sent and the rejection is what the handler
    throws; when it returns an id, the second request is the start of
    exactly that id, however the remote API then answers. *)
Theorem create_then_start (args : Args.t) (st : State_) :
  Args.confirm args = Some (JBool true) →
  (∀ e w1,
     respond (world st) (createRequest env args) = (Rejected e, w1) →
     dispatch_ "portainer_create_container" args st
     = (Thrown (AxiosErr e),
        mkState w1 (calls st ++ [(createRequest env args, Rejected e)])))
  ∧ (∀ Id w1 reply w2,
       respond (world st) (createRequest env args) = (Resolved (DCreated (Some Id)), w1) →
       respond w1 (startRequest env Id) = (reply, w2) →
       (dispatch_ "portainer_create_container" args st).2
       = mkState w2 (calls st ++ [(createRequest env args, Resolved (DCreated (Some Id)));
                                  (startRequest env Id, reply)])).
Proof.
  intros Hconfirm. split.
  - intros e w1 Hcreate. unfold dispatch. simpl. rewrite Hconfirm. simpl.
    rewrite createContainer_unfold. unfold bind, send. now rewrite Hcreate.
  - intros Id w1 reply w2 Hcreate Hstart.
    unfold dispatch. simpl. rewrite Hconfirm. simpl.
    rewrite createContainer_unfold. unfold bind, send.
    rewrite Hcreate. simpl. rewrite Hstart.
    rewrite <- app_assoc. now destruct reply.
Qed.

(** X10.  The defaults the schemas advertise are the defaults the
    handlers apply: leaving out [all], [tail], [confirm] or
    [restart_policy] gives, call for call and result for result, what
    supplying the advertised default gives (true, 100, false,
    "unless-stopped"). *)
Theorem advertised_defaults_applied (name : string) (args : Args.t) (st : State_) :
  dispatch_ name args st = dispatch_ name (withDefaults args) st
  ∧ callTool_ (ToolCall.mk name args) st
    = callTool_ (ToolCall.mk name (withDefaults args)) st
  ∧ advertisedDefault "portainer_list_containers" "all" = Some (LBool true)
  ∧ advertisedDefault "portainer_container_logs" "tail" = Some (LNum 100)
  ∧ advertisedDefault "portainer_create_container" "restart_policy"
    = Some (LStr "unless-stopped")
  ∧ Forall (fun tool => advertisedDefault tool "confirm" = Some (LBool false))
      ["portainer_container_action"; "portainer_create_container";
       "portainer_deploy_stack"].
Proof.
  assert (Hd : dispatch_ name args st = dispatch_ name (withDefaults args) st).
  { destruct args as [all id tail action confirm nm img envv ports vols policy yaml].
    unfold dispatch, withDefaults. simpl.
    repeat match goal with
           | |- context [if String.eqb name ?lit then _ else _] =>
               destruct (String.eqb name lit)
           end;
      try reflexivity.
    - now destruct confirm.
    - destruct confirm as [j |]; simpl; [destruct (truthy j); simpl |];
        try reflexivity.
      unfold createContainer, createConfig. simpl. now destruct policy.
    - now destruct confirm. }
  split; [exact Hd | split].
  - unfold callTool. destruct (tokenMissing env); [reflexivity |].
    unfold try_catch. cbn [ToolCall.name ToolCall.arguments]. now rewrite Hd.
  - repeat split; repeat constructor.
Qed.

(** X11.  The token guard fires exactly when PORTAINER_TOKEN is unset or
    empty, and the error "PORTAINER_TOKEN not configured" is returned by
    the guard and by nothing else. *)
Theorem token_guard (request : ToolCall.t) (st : State_) :
  (tokenMissing env = true ↔
   ProcessEnv.PORTAINER_TOKEN env = None ∨ ProcessEnv.PORTAINER_TOKEN env = Some "")
  ∧ ((callTool_ request st).1
     = Thrown (McpError InternalError "PORTAINER_TOKEN not configured")
     ↔ tokenMissing env = true).
Proof.
  split.
  - unfold tokenMissing, PORTAINER_TOKEN.
    destruct (ProcessEnv.PORTAINER_TOKEN env) as [[|] |]; split; auto;
      try discriminate; intros [H | H]; discriminate H.
  - unfold callTool. destruct (tokenMissing env); simpl; [tauto |].
    split; [| discriminate]. unfold try_catch.
    destruct (dispatch_ (ToolCall.name request) (ToolCall.arguments request) st)
      as [[result | e] st1] eqn:Ed; simpl; [discriminate |].
    pose proof (dispatch_ends _ _ _ _ _ Ed) as Hend.
    destruct e as [code message | [[[status body] |] message] |]; simpl in *;
      try discriminate.
    destruct Hend as (-> & _). discriminate.
Qed.

End Gate.

(* ================================================================== *)
(** ** More on the creation payload                                    *)
(* ================================================================== *)

#[local] Set Warnings "-clear-no-such-hyp".

Module PayloadShape.




End PayloadShape.



(* ================================================================== *)
(** ** More on the gate, the short ids, the names and the placeholders *)
(* ================================================================== *)

(** X14.  The gate looks at the action word only up to the case of its
    ASCII letters and up to what surrounds a marker: two action names
    that differ in the case of ASCII letters alone are gated alike, and
    a name that contains a gated name is gated. *)
Theorem gate_ignores_case_and_context (a b : string) :
  (equalIgnoringCase a b → requiresConfirmation a = requiresConfirmation b)
  ∧ (contains a b → requiresConfirmation b = true → requiresConfirmation a = true).
Proof.
  split.
  - intros H. apply JsFacts.toLowerCase_equalIgnoringCase in H.
    unfold requiresConfirmation. now rewrite H.
  - intros (pre & post & ->) Hb.
    apply requiresConfirmation_spec in Hb as (w & Hin & pre' & mid & post' & -> & Hs).
    apply requiresConfirmation_spec. exists w. split; [exact Hin |].
    exists (pre +:+ pre'), mid, (post' +:+ post).
    split; [| exact Hs]. now rewrite !JsFacts.app_assoc.
Qed.

(** X15.  The short ids never run past the id: [substring(0, 12)] shows
    min(12, length) characters, so an id of at most 12 characters is
    shown whole; [substring(7, 19)] of [listImages] shows
    min(12, length - 7) characters, so an image id of at most 7
    characters is shown as the empty string. *)
Theorem short_id_bounds (Id : string) :
  String.length (Js.substring 0 12 Id) = Nat.min 12 (String.length Id)
  ∧ (String.length Id ≤ 12 → Js.substring 0 12 Id = Id)
  ∧ String.length (Js.substring 7 19 Id) = Nat.min 12 (String.length Id - 7)
  ∧ (String.length Id ≤ 7 → Js.substring 7 19 Id = "").
Proof.
  rewrite !JsFacts.substring_spec by lia.
  rewrite !JsFacts.substring_take_drop. simpl Nat.sub.
  assert (H7 : String.length (Js.take 12 (Js.drop 7 Id))
               = Nat.min 12 (String.length Id - 7))
    by now rewrite JsFacts.length_take, JsFacts.length_drop.
  repeat split.
  - now rewrite JsFacts.length_take.
  - intros Hlen. now apply JsFacts.take_all.
  - exact H7.
  - intros Hlen. apply Nat.sub_0_le in Hlen. rewrite Hlen, Nat.min_0_r in H7.
    now destruct (Js.take 12 (Js.drop 7 Id)).
Qed.

(** X16.  [replace('/', '')], by which [listContainers] and
    [getContainerInfo] show a name, removes the first slash of the name
    wherever it stands and nothing else: a later slash stays, and a name
    without a slash is shown as it is. *)
Theorem first_slash_removed (before after : string) :
  Js.includes before "/" = false →
  Js.replace "/" "" (before +:+ "/" +:+ after) = before +:+ after
  ∧ Js.replace "/" "" before = before.
Proof.
  induction before as [| c before IH]; intros H.
  - split; reflexivity.
  - cbn [Js.includes] in H. apply orb_false_iff in H as [Hc H].
    destruct (IH H) as [IH1 IH2].
    change ((String c before) +:+ "/" +:+ after)
      with (String c (before +:+ "/" +:+ after)).
    cbn [Js.replace]. simpl in Hc. rewrite andb_true_r in Hc.
    simpl Js.startsWith. rewrite !andb_true_r, Hc.
    now rewrite IH1, IH2.
Qed.

(** X17.  The placeholders stand for emptiness and for nothing else: the
    port summary of a listed container is empty, and so rendered as
    "none", exactly when its port list is empty; the mount lines of an
    inspected container are empty, and so rendered as "none", exactly
    when its mount list is empty. *)
Theorem placeholder_iff_empty (c : Container.t) (s : Summary.t)
    (mounts : list Mount.t) :
  (summarize c = Some s →
   (Summary.ports s = "" ↔ Container.Ports c = Some []))
  ∧ (Js.join nl (map renderMount mounts) = "" ↔ mounts = []).
Proof.
  split.
  - intros Hs. unfold summarize in Hs.
    destruct (head (Container.Names c)); [| discriminate Hs].
    destruct (Container.Ports c) as [ports |]; simpl in Hs; [| discriminate Hs].
    injection Hs as <-. simpl.
    rewrite TextFacts.join_nonempty.
    + split; [intros H | intros [= ->]; reflexivity].
      now apply map_eq_nil in H as ->.
    + apply Forall_map, Forall_forall. intros p _.
      apply TextFacts.portText_nonempty.
  - rewrite TextFacts.join_nonempty.
    + split; [intros H | now intros ->]. now apply map_eq_nil in H.
    + apply Forall_map, Forall_forall. intros m _. discriminate.
Qed.

(** X18.  The registry is consistent with itself: every parameter a
    schema requires is one it declares, and every default of an
    enumerated parameter is one of the enumerated values. *)
Theorem registry_well_formed :
  Forall (fun d =>
            let s := Tool.inputSchema d in
            Forall (fun p => p ∈ declared s) (requiredOf s)
            ∧ Forall (fun p => ∀ ps, propertyOf s p = Some ps → defaultInEnum ps)
                     (declared s))
         listTools.
Proof.
  repeat constructor;
    try (intros ps [= <-]; vm_compute; repeat constructor).
Qed.

(* ================================================================== *)
(** ** The further theorems at the sample inputs                       *)
(* ================================================================== *)

(** The POST of a confirmed stop went through an open gate. *)
Lemma confirmed_stop_gate_open :
  gateOpen "portainer_container_action" confirmedStop.
Proof.
  destruct (post_only_through_open_gate scripted sampleStringify sampleMegabytes
              sampleGigabytes sampleDate sampleEnv
              (ToolCall.mk "portainer_container_action" confirmedStop)
              (mkState [Resolved DEmpty] []))
    as ((issued & Hcalls & Hposts) & _).
  vm_compute in Hcalls. subst issued.
  refine (proj1 (Hposts (Request.mk POST _ [] NoBody) (Resolved DEmpty) _)).
  left.
Defined.

(** Listing containers costs one call. *)
Lemma list_costs_one_call :
  length (calls (sampleCall listAll [Resolved (DContainers [webContainer])]).2) ≤ 1.
Proof.
  destruct (call_budget scripted sampleStringify sampleMegabytes sampleGigabytes
              sampleDate sampleEnv listAll
              (mkState [Resolved (DContainers [webContainer])] []))
    as (issued & Hcalls & _ & Hone).
  unfold sampleCall. rewrite Hcalls. simpl. apply Hone. discriminate.
Defined.

(** An unreachable remote: the axios error comes back as it is. *)
Lemma unreachable_remote_sample :
  (sampleCall listAll []).1
  = Thrown (AxiosErr (AxiosError.mk None "Network Error")).
Proof.
  destruct (unreachable_remote_rethrown scripted sampleStringify sampleMegabytes
              sampleGigabytes sampleDate sampleEnv listAll (mkState [] []))
    as (issued & Hcalls & Hlast).
  vm_compute in Hcalls. subst issued.
  refine (proj1 (Hlast (Request.mk GET _ [("all", PBool true)] NoBody)
                   (AxiosError.mk None "Network Error") _ eq_refl)).
  left.
Defined.

(** A start needs no confirmation; a confirmed stop goes through, and
    so does one whose [confirm] is the string "false". *)
Lemma start_and_confirmed_stop_proceed :
  sampleCall (ToolCall.mk "portainer_container_action" startWeb) [Resolved DEmpty]
  = (Returned
       (ToolResult.mk
          [Content.mk "text" "✅ Successfully performed 'start' on container web"]),
     mkState [] [(actionRequest sampleEnv (Some "web") "start", Resolved DEmpty)])
  ∧ sampleCall (ToolCall.mk "portainer_container_action" confirmedStop)
      [Resolved (DText "ignored")]
    = (Returned
         (ToolResult.mk
            [Content.mk "text" "✅ Successfully performed 'stop' on container web"]),
       mkState [] [(actionRequest sampleEnv (Some "web") "stop",
                    Resolved (DText "ignored"))])
  ∧ sampleCall (ToolCall.mk "portainer_container_action" stopSaidFalse)
      [Resolved DEmpty]
    = (Returned
         (ToolResult.mk
            [Content.mk "text" "✅ Successfully performed 'stop' on container web"]),
       mkState [] [(actionRequest sampleEnv (Some "web") "stop", Resolved DEmpty)]).
Proof.
  repeat apply conj.
  - exact (proj2 (container_action_proceeds scripted sampleStringify sampleMegabytes
                    sampleGigabytes sampleDate sampleEnv startWeb "start" DEmpty
                    (mkState [Resolved DEmpty] []) []
                    eq_refl (or_introl eq_refl) eq_refl) eq_refl).
  - refine (proj2 (container_action_proceeds scripted sampleStringify sampleMegabytes
                    sampleGigabytes sampleDate sampleEnv confirmedStop "stop"
                    (DText "ignored")
                    (mkState [Resolved (DText "ignored")] []) []
                    eq_refl (or_intror _) eq_refl) eq_refl).
    exists (JBool true). split; [reflexivity |].
    intros [H | [H | [H | H]]]; discriminate H.
  - refine (proj2 (container_action_proceeds scripted sampleStringify sampleMegabytes
                    sampleGigabytes sampleDate sampleEnv stopSaidFalse "stop"
                    DEmpty (mkState [Resolved DEmpty] []) []
                    eq_refl (or_intror _) eq_refl) eq_refl).
    exists (JStr "false"). split; [reflexivity |].
    intros [H | [H | [H | H]]]; discriminate H.
Defined.

(** No action, no call. *)
Lemma actionless_call_fails :
  Args.action actionless = None
  ∧ sampleCall (ToolCall.mk "portainer_container_action" actionless)
      [Resolved DEmpty]
    = (Thrown TypeError, mkState [Resolved DEmpty] []).
Proof.
  split; [reflexivity |].
  exact (proj2 (container_action_without_action scripted sampleStringify
                  sampleMegabytes sampleGigabytes sampleDate sampleEnv actionless
                  (mkState [Resolved DEmpty] []) eq_refl) eq_refl).
Defined.

(** A deployment that the remote API accepts as stack 7, one that it
    accepts without an id, and one that it refuses. *)
Lemma deploy_blog_succeeds :
  sampleCall (ToolCall.mk "portainer_deploy_stack" deployBlog)
    [Resolved (DStack (Some 7%Z))]
  = (Returned
       (ToolResult.mk
          [Content.mk "text"
             ("✅ Stack 'blog' deployed successfully!" +:+ newline +:+ "Stack ID: 7")]),
     mkState [] [(stackRequest sampleEnv deployBlog, Resolved (DStack (Some 7%Z)))])
  ∧ sampleCall (ToolCall.mk "portainer_deploy_stack" deployBlog)
      [Resolved (DStack None)]
    = (Returned
         (ToolResult.mk
            [Content.mk "text"
               ("✅ Stack 'blog' deployed successfully!" +:+ newline +:+
                "Stack ID: undefined")]),
       mkState [] [(stackRequest sampleEnv deployBlog, Resolved (DStack None))])
  ∧ (sampleCall (ToolCall.mk "portainer_deploy_stack" deployBlog) []).2
    = mkState [] [(stackRequest sampleEnv deployBlog,
                   Rejected (AxiosError.mk None "Network Error"))]
  ∧ stackRequest sampleEnv deployBlog
    = Request.mk POST "/api/stacks?endpointId=1&method=string&type=2" []
        (StackBody (StackData.mk (Some "blog") (Some "services: {}") (JArr []))).
Proof.
  assert (Hconfirmed : confirmed deployBlog).
  { exists (JBool true). split; [reflexivity |].
    intros [H | [H | [H | H]]]; discriminate H. }
  repeat apply conj.
  - destruct (deploy_stack_confirmed scripted sampleStringify sampleMegabytes
                sampleGigabytes sampleDate sampleEnv deployBlog
                (mkState [Resolved (DStack (Some 7%Z))] []) Hconfirmed)
      as (Hrun & _).
    destruct (Hrun (Resolved (DStack (Some 7%Z))) [] eq_refl) as (_ & _ & Hok & _).
    exact (proj2 (Hok (Some 7%Z) eq_refl) eq_refl).
  - destruct (deploy_stack_confirmed scripted sampleStringify sampleMegabytes
                sampleGigabytes sampleDate sampleEnv deployBlog
                (mkState [Resolved (DStack None)] []) Hconfirmed)
      as (Hrun & _).
    destruct (Hrun (Resolved (DStack None)) [] eq_refl) as (_ & _ & Hok & _).
    exact (proj2 (Hok None eq_refl) eq_refl).
  - destruct (deploy_stack_confirmed scripted sampleStringify sampleMegabytes
                sampleGigabytes sampleDate sampleEnv deployBlog
                (mkState [] []) Hconfirmed)
      as (Hrun & _).
    destruct (Hrun (Rejected (AxiosError.mk None "Network Error")) [] eq_refl)
      as (_ & Hstate & _).
    exact (Hstate eq_refl).
  - reflexivity.
Defined.

(** A refused creation is followed by no start. *)
Lemma refused_creation_stops :
  (dispatch scripted sampleNumber sampleNumber sampleNumber sampleEnv
     "portainer_create_container" createWeb
     (mkState [Rejected (AxiosError.mk (Some (409%Z, JStr "name in use")) "409");
               Resolved DEmpty] [])).2
  = mkState [Resolved DEmpty]
      [(createRequest sampleEnv createWeb,
        Rejected (AxiosError.mk (Some (409%Z, JStr "name in use")) "409"))].
Proof.
  destruct (create_then_start scripted sampleNumber sampleNumber sampleNumber
              sampleEnv createWeb
              (mkState [Rejected (AxiosError.mk (Some (409%Z, JStr "name in use"))
                                                "409");
                        Resolved DEmpty] []) eq_refl)
    as [Hrefused _].
  now rewrite (Hrefused _ _ eq_refl).
Defined.


(** STOP is gated like stop, and so is force-stop. *)
Lemma gate_samples :
  requiresConfirmation "STOP" = requiresConfirmation "stop"
  ∧ requiresConfirmation "force-stop" = true.
Proof.
  split.
  - apply (proj1 (gate_ignores_case_and_context "STOP" "stop")).
    repeat constructor; right; right; (split; [vm_compute; lia | reflexivity]).
  - apply (proj2 (gate_ignores_case_and_context "force-stop" "stop"));
      [now exists "force-", "" | reflexivity].
Defined.

(** A short id is shown whole; a short image id is not shown. *)
Lemma short_id_samples :
  Js.substring 0 12 "abc" = "abc" ∧ Js.substring 7 19 "sha256:" = "".
Proof.
  split.
  - apply (proj1 (proj2 (short_id_bounds "abc"))). simpl. lia.
  - apply (proj2 (proj2 (proj2 (short_id_bounds "sha256:")))). simpl. lia.
Defined.

(** Only the first slash goes. *)
Lemma slash_samples :
  Js.replace "/" "" "/web/db" = "web/db" ∧ Js.replace "/" "" "a/b" = "ab".
Proof.
  split.
  - exact (proj1 (first_slash_removed "" "web/db" eq_refl)).
  - exact (proj1 (first_slash_removed "a" "b" eq_refl)).
Defined.

(** [webContainer] has ports, so its summary is not the placeholder. *)
Lemma web_ports_not_placeholder :
  ∃ s, summarize webContainer = Some s ∧ Summary.ports s ≠ "".
Proof.
  eexists. split; [reflexivity |]. intros Hempty.
  apply (proj1 (placeholder_iff_empty webContainer _ []) eq_refl) in Hempty.
  discriminate Hempty.
Defined.

(** The default restart policy is one of the allowed policies. *)
Lemma restart_policy_default_allowed :
  "unless-stopped" ∈ ["no"; "always"; "unless-stopped"; "on-failure"].
Proof.
  pose proof registry_well_formed as H. rewrite Forall_forall in H.
  destruct (H (Tool.mk "portainer_create_container"
                 "Create a new container from an image" _)
              ltac:(do 4 right; left)) as [_ Hdefaults].
  rewrite Forall_forall in Hdefaults.
  exact (Hdefaults "restart_policy" ltac:(do 5 right; left) _ eq_refl).
Defined.
